(** * SaveMyMoney ML API: the prediction router

    A shallow embedding of [ml-api/app/routers/predictions.py] and of the
    request and response models of [ml-api/app/models/schemas.py].

    - Python [float] is IEEE 754 binary64: Rocq's primitive [float].
    - Python [int] is unbounded: [Z].
    - [raise] / [try ... except] is an error monad, [Result].
    - The MongoDB collection is the list of its documents.
    - The two predictors of [app.ml], pandas' [mean], [str(e)], the iteration
      order of a Python [set] and the clock are the fields of a [Runtime]. *)

From Stdlib Require Import ZArith NArith List String Ascii Bool Lia.
From Stdlib Require Import DecimalString.
From Stdlib Require Import Floats.
From stdpp Require Import base option list strings sorting.

Local Open Scope string_scope.
Local Open Scope list_scope.
Local Open Scope Z_scope.

(** ** Exceptions *)

(** The exception classes that reach the handlers.  [ValidationError] is
    pydantic's, a subclass of [ValueError]; [RequestValidationError] is what
    FastAPI raises when the body of a request fails validation;
    [HTTPException] is FastAPI's too.  Every class here is a subclass of
    [Exception]. *)
Inductive PyExc : Type :=
  | ValueError (msg : string)
  | ValidationError (errors : list string)
  | RequestValidationError (errors : list string)
  | HTTPException (status_code : Z) (detail : string)
  | OtherException (msg : string).

Inductive Result (A : Type) : Type :=
  | Ok (a : A)
  | Raise (e : PyExc).
Arguments Ok {A} a.
Arguments Raise {A} e.

Definition bind {A B : Type} (m : Result A) (k : A -> Result B) : Result B :=
  match m with
  | Ok a => k a
  | Raise e => Raise e
  end.

Notation "x <- m ;; k" := (bind m (fun x => k))
  (at level 100, m at next level, right associativity).

(** [isinstance(e, ValueError)] *)
Definition is_ValueError (e : PyExc) : bool :=
  match e with
  | ValueError _ | ValidationError _ => true
  | RequestValidationError _ | HTTPException _ _ | OtherException _ => false
  end.

(** [isinstance(e, HTTPException)] *)
Definition is_HTTPException (e : PyExc) : bool :=
  match e with
  | HTTPException _ _ => true
  | _ => false
  end.

(** ** Data model *)

(** A BSON value used as a key: an [ObjectId] or a string. *)
Inductive Bson : Type :=
  | ObjectId (hex : string)
  | Str (s : string).

(** Python's [str(v)] on such a value. *)
Definition str (v : Bson) : Bson :=
  match v with
  | ObjectId hex => Str hex
  | Str s => Str s
  end.

#[global] Instance Bson_eq_dec : EqDecision Bson.
Proof. solve_decision. Defined.

(** A document of the [transactions] collection; [date] is a timestamp. *)
Module Transaction.
Record t : Type := mk {
  _id : Bson;
  user : Bson;
  description : string;
  amount : float;
  date : Z;
  category : string;
  type : string
}.
End Transaction.

Module PredictionRequest.
Record t : Type := mk {
  user_id : string;
  category : option string;
  days_ahead : Z;
  model_type : string
}.
End PredictionRequest.

Module PredictionPoint.
Record t : Type := mk {
  date : string;
  predicted_amount : float;
  confidence_lower : option float;
  confidence_upper : option float
}.
End PredictionPoint.

(** The dictionary a predictor's [predict] returns: the four keys the router
    reads with [result[...]] and the one it reads with [result.get(...)],
    which is [None] when the dictionary has no such key and [Some v] when it
    has it with the value [v], a number or Python's [None]. *)
Module Forecast.
Record t : Type := mk {
  predictions : list PredictionPoint.t;
  total_predicted : float;
  avg_daily_spending : float;
  trend : string;
  accuracy_score : option (option float)
}.
End Forecast.

(** [d.get(key)] and [d.get(key, default)] on such an entry. *)
Definition dict_get (entry : option (option float)) (default : option float)
  : option float :=
  match entry with
  | Some v => v
  | None => default
  end.

Module PredictionResponse.
Record t : Type := mk {
  user_id : string;
  category : option string;
  predictions : list PredictionPoint.t;
  model_type : string;
  accuracy_score : option float;
  total_predicted : float;
  avg_daily_spending : float;
  trend : string;
  created_at : Z
}.
End PredictionResponse.

Module CategoryInsights.
Record t : Type := mk {
  category : string;
  current_avg : float;
  predicted_avg : float;
  trend : string;
  recommendation : string
}.
End CategoryInsights.

Module InsightsResponse.
Record t : Type := mk {
  user_id : string;
  total_predicted_spending : float;
  categories : list CategoryInsights.t;
  overall_trend : string;
  created_at : Z
}.
End InsightsResponse.

(** The dictionary [compare_models] returns: the entry of the linear model and
    what the LSTM contributed, a summary under ["lstm"], the text of an error
    under ["lstm_error"], or a fixed text under ["lstm"]. *)
Module ModelSummary.
Record t : Type := mk {
  total_predicted : float;
  avg_daily_spending : float;
  trend : string;
  accuracy_score : option float
}.
End ModelSummary.

Inductive LstmEntry : Type :=
  | LstmSummary (summary : ModelSummary.t)
  | LstmError (lstm_error : string)
  | LstmText (text : string).

Module Comparison.
Record t : Type := mk {
  user_id : string;
  days_ahead : Z;
  linear_regression : ModelSummary.t;
  lstm : LstmEntry
}.
End Comparison.

(** ** The transaction store *)

(** The query dictionary of [get_user_transactions]: the keys ["user"] and
    ["type"] are always present, ["category"] only when a filter was given. *)
Record Query : Type := mkQuery {
  q_user : string;
  q_type : string;
  q_category : option string
}.

(** Whether a document matches the query (equality on every key present). *)
Definition matches (q : Query) (t : Transaction.t) : bool :=
  bool_decide (Transaction.user t = Str (q_user q))
  && bool_decide (Transaction.type t = q_type q)
  && match q_category q with
     | Some c => bool_decide (Transaction.category t = c)
     | None => true
     end.

(** [cursor.sort("date", 1)]: ascending by date, documents with equal dates
    kept in collection order. *)
Fixpoint insert_by_date (t : Transaction.t) (l : list Transaction.t)
  : list Transaction.t :=
  match l with
  | [] => [t]
  | u :: l' =>
      if Transaction.date t <=? Transaction.date u then t :: u :: l'
      else u :: insert_by_date t l'
  end.

Definition sort_by_date (l : list Transaction.t) : list Transaction.t :=
  foldr insert_by_date [] l.

(** The loop that replaces [_id] and [user] by their strings. *)
Definition stringify (t : Transaction.t) : Transaction.t :=
  Transaction.mk (str (Transaction._id t)) (str (Transaction.user t))
    (Transaction.description t) (Transaction.amount t) (Transaction.date t)
    (Transaction.category t) (Transaction.type t).

(** Python's truth value of [category: str = None]. *)
Definition truthy (category : option string) : bool :=
  match category with
  | None => false
  | Some c => negb (bool_decide (c = ""))
  end.

Definition get_user_transactions (db : list Transaction.t)
    (user_id : string) (category : option string) : list Transaction.t :=
  let query :=
    if truthy category then mkQuery user_id "expense" category
    else mkQuery user_id "expense" None in
  let cursor := sort_by_date (List.filter (matches query) db) in
  let transactions := take 1000 cursor in
  stringify <$> transactions.

(** ** Request validation *)

(** The pattern [^(linear|lstm)$] of the field [model_type]. *)
Definition model_type_pattern (model_type : string) : bool :=
  bool_decide (model_type = "linear") || bool_decide (model_type = "lstm").

(** The constraint [ge=1, le=365] of the field [days_ahead]. *)
Definition days_ahead_in_range (days_ahead : Z) : bool :=
  (1 <=? days_ahead) && (days_ahead <=? 365).

(** [PredictionRequest(user_id=..., category=..., days_ahead=...,
    model_type=...)]: pydantic checks every field and raises one
    [ValidationError] that lists the fields that failed. *)
Definition validation_errors (days_ahead : Z) (model_type : string)
  : list string :=
  (if days_ahead_in_range days_ahead then [] else ["days_ahead"])
  ++ (if model_type_pattern model_type then [] else ["model_type"]).

Definition PredictionRequest_init (user_id : string) (category : option string)
    (days_ahead : Z) (model_type : string) : Result PredictionRequest.t :=
  let errors := validation_errors days_ahead model_type in
  match errors with
  | [] => Ok (PredictionRequest.mk user_id category days_ahead model_type)
  | _ :: _ => Raise (ValidationError errors)
  end.

(** ** Formatting a float with [:.1f] *)

Definition digits_of_N (n : N) : string :=
  NilZero.string_of_uint (N.to_uint n).

(** The number of tenths nearest to [m * 2^e], ties to the even one. *)
Definition round_tenths (m : positive) (e : Z) : N :=
  if 0 <=? e then (Npos m * 2 ^ Z.to_N e * 10)%N
  else
    let num := (Npos m * 10)%N in
    let den := (2 ^ Z.to_N (- e))%N in
    let q := (num / den)%N in
    let r := (num mod den)%N in
    match (2 * r ?= den)%N with
    | Lt => q
    | Gt => (q + 1)%N
    | Eq => if N.even q then q else (q + 1)%N
    end.

Definition format_tenths (sign : bool) (tenths : N) : string :=
  ((if sign then "-" else "")
   ++ digits_of_N (tenths / 10) ++ "." ++ digits_of_N (tenths mod 10))%string.

(** Python's [format(x, ".1f")]. *)
Definition format_1f (x : float) : string :=
  match Prim2SF x with
  | S754_nan => "nan"
  | S754_infinity sign => if sign then "-inf" else "inf"
  | S754_zero sign => format_tenths sign 0
  | S754_finite sign m e => format_tenths sign (round_tenths m e)
  end.

(** ** The runtime the router runs in *)

(** What the router takes from outside the two files embedded here: the
    capability flag and the two predictors of [app.ml], pandas' [mean] of a
    column, [str(e)], the order in which a [set] of strings is listed (some
    order of the same elements, without repetition) and the clock. *)
Record Runtime : Type := mkRuntime {
  TENSORFLOW_AVAILABLE : bool;
  LinearPredictor_predict : list Transaction.t -> Z -> Result Forecast.t;
  LSTMPredictor_predict :
    option Z -> list Transaction.t -> Z -> Result Forecast.t;
  mean : list float -> float;
  str_exc : PyExc -> string;
  set_to_list : list string -> list string;
  set_to_list_elem : forall l x, x ∈ set_to_list l <-> x ∈ l;
  set_to_list_NoDup : forall l, NoDup (set_to_list l);
  datetime_now : Z
}.

(** The predictor objects the router constructs: [LinearPredictor()],
    [LSTMPredictor(lookback=7)] and [LSTMPredictor()]. *)
Inductive Predictor : Type :=
  | LinearPredictor
  | LSTMPredictor (lookback : option Z).

(** [predictor.predict(transactions, days_ahead)] *)
Definition predict (rt : Runtime) (predictor : Predictor)
    (transactions : list Transaction.t) (days_ahead : Z) : Result Forecast.t :=
  match predictor with
  | LinearPredictor => LinearPredictor_predict rt transactions days_ahead
  | LSTMPredictor lookback =>
      LSTMPredictor_predict rt lookback transactions days_ahead
  end.

(** ** Recommendations *)

Definition _generate_recommendation (trend : string)
    (predicted_avg current_avg : float) : string :=
  if bool_decide (trend = "increasing") then
    let increase_pct :=
      (if 0 <? current_avg
       then (predicted_avg - current_avg) / current_avg * 100
       else 0)%float in
    ("Seus gastos nesta categoria estão aumentando (~"
     ++ format_1f increase_pct
     ++ "%). Considere estabelecer um limite.")%string
  else if bool_decide (trend = "decreasing") then
    let decrease_pct :=
      (if 0 <? current_avg
       then (current_avg - predicted_avg) / current_avg * 100
       else 0)%float in
    ("Ótimo! Seus gastos estão diminuindo (~"
     ++ format_1f decrease_pct
     ++ "%). Continue assim!")%string
  else "Seus gastos estão estáveis. Mantenha o controle!".

(** ** The handlers *)

Section Handlers.

Variable rt : Runtime.
Variable db : list Transaction.t.

Definition no_data : PyExc :=
  HTTPException 404 "No transaction data found for this user".

Definition lstm_unavailable : PyExc :=
  HTTPException 503
    "LSTM model not available. TensorFlow is not installed. Using linear regression instead.".

(** "Select model based on request" *)
Definition select_predictor (model_type : string) : Result Predictor :=
  if bool_decide (model_type = "lstm") then
    if negb (TENSORFLOW_AVAILABLE rt) then Raise lstm_unavailable
    else Ok (LSTMPredictor (Some 7))
  else Ok LinearPredictor.

(** "Prepare response" *)
Definition prediction_response (request : PredictionRequest.t)
    (result : Forecast.t) : PredictionResponse.t :=
  PredictionResponse.mk
    (PredictionRequest.user_id request)
    (PredictionRequest.category request)
    (Forecast.predictions result)
    (PredictionRequest.model_type request)
    (dict_get (Forecast.accuracy_score result) None)
    (Forecast.total_predicted result)
    (Forecast.avg_daily_spending result)
    (Forecast.trend result)
    (datetime_now rt).

(** The [try] block of [predict_expenses]. *)
Definition predict_expenses_try (request : PredictionRequest.t)
  : Result PredictionResponse.t :=
  let transactions :=
    get_user_transactions db (PredictionRequest.user_id request)
      (PredictionRequest.category request) in
  match transactions with
  | [] => Raise no_data
  | _ :: _ =>
      predictor <- select_predictor (PredictionRequest.model_type request) ;;
      result <- predict rt predictor transactions
                  (PredictionRequest.days_ahead request) ;;
      Ok (prediction_response request result)
  end.

(** [predict_expenses]: the [try] block under its two [except] clauses,
    [except ValueError] first and [except Exception] second. *)
Definition predict_expenses (request : PredictionRequest.t)
  : Result PredictionResponse.t :=
  match predict_expenses_try request with
  | Ok response => Ok response
  | Raise e =>
      if is_ValueError e then Raise (HTTPException 400 (str_exc rt e))
      else Raise (HTTPException 500
                    ("Prediction error: " ++ str_exc rt e)%string)
  end.

(** The route [POST /predict]: the framework builds the request model from
    the body, answers a body that fails validation itself, and calls the
    handler otherwise. *)
Definition post_predict (user_id : string) (category : option string)
    (days_ahead : Z) (model_type : string) : Result PredictionResponse.t :=
  match PredictionRequest_init user_id category days_ahead model_type with
  | Ok request => predict_expenses request
  | Raise (ValidationError errors) => Raise (RequestValidationError errors)
  | Raise e => Raise e
  end.

(** [predict_category]; the defaults of the signature are
    [days_ahead = 30] and [model_type = "linear"]. *)
Definition predict_category (user_id category : string) (days_ahead : Z)
    (model_type : string) : Result PredictionResponse.t :=
  request <- PredictionRequest_init user_id (Some category) days_ahead
               model_type ;;
  predict_expenses request.

(** The state of the loop over the categories:
    [(category_insights, total_predicted)]. *)
Definition InsightsAcc : Type := (list CategoryInsights.t * float)%type.

(** [[t for t in transactions if t['category'] == category]] *)
Definition category_transactions (category : string)
    (transactions : list Transaction.t) : list Transaction.t :=
  List.filter (fun t => bool_decide (Transaction.category t = category))
    transactions.

(** One iteration of [for category in categories]. *)
Definition insights_step (transactions : list Transaction.t)
    (days_ahead : Z) (acc : InsightsAcc) (category : string) : InsightsAcc :=
  let '(category_insights, total_predicted) := acc in
  let cat_transactions := category_transactions category transactions in
  if (length cat_transactions <? 2)%nat then acc
  else
    match predict rt LinearPredictor cat_transactions days_ahead with
    | Ok result =>
        let current_avg := mean rt (Transaction.amount <$> cat_transactions) in
        let insight :=
          CategoryInsights.mk category current_avg
            (Forecast.avg_daily_spending result)
            (Forecast.trend result)
            (_generate_recommendation (Forecast.trend result)
               (Forecast.avg_daily_spending result) current_avg) in
        (category_insights ++ [insight],
         (total_predicted + Forecast.total_predicted result)%float)
    | Raise _ => acc
    end.

(** [sum(1 for ci in category_insights if ci.trend == trend)] *)
Definition trend_count (trend : string)
    (category_insights : list CategoryInsights.t) : nat :=
  length (List.filter
            (fun ci => bool_decide (CategoryInsights.trend ci = trend))
            category_insights).

Definition overall_trend_of (category_insights : list CategoryInsights.t)
  : string :=
  let increasing_count := trend_count "increasing" category_insights in
  let decreasing_count := trend_count "decreasing" category_insights in
  if (decreasing_count <? increasing_count)%nat then "increasing"
  else if (increasing_count <? decreasing_count)%nat then "decreasing"
  else "stable".

(** The [try] block of [get_spending_insights]. *)
Definition get_spending_insights_try (user_id : string) (days_ahead : Z)
  : Result InsightsResponse.t :=
  let transactions := get_user_transactions db user_id None in
  match transactions with
  | [] => Raise no_data
  | _ :: _ =>
      let categories :=
        set_to_list rt (Transaction.category <$> transactions) in
      let '(category_insights, total_predicted) :=
        fold_left (insights_step transactions days_ahead) categories
          ([], 0%float) in
      Ok (InsightsResponse.mk user_id total_predicted category_insights
            (overall_trend_of category_insights) (datetime_now rt))
  end.

(** [except HTTPException: raise] before [except Exception]. *)
Definition reraise_http {A : Type} (prefix : string) (m : Result A)
  : Result A :=
  match m with
  | Ok a => Ok a
  | Raise e =>
      if is_HTTPException e then Raise e
      else Raise (HTTPException 500 (prefix ++ str_exc rt e)%string)
  end.

Definition get_spending_insights (user_id : string) (days_ahead : Z)
  : Result InsightsResponse.t :=
  reraise_http "Insights error: "
    (get_spending_insights_try user_id days_ahead).

(** The inner dictionaries of the comparison, with
    [result.get("accuracy_score", 0.0)]: [0.0] for a forecast without the
    key, the value of the key otherwise, [None] included. *)
Definition model_summary (result : Forecast.t) : ModelSummary.t :=
  ModelSummary.mk (Forecast.total_predicted result)
    (Forecast.avg_daily_spending result) (Forecast.trend result)
    (dict_get (Forecast.accuracy_score result) (Some 0%float)).

(** The [try] block of [compare_models]. *)
Definition compare_models_try (user_id : string) (days_ahead : Z)
  : Result Comparison.t :=
  let transactions := get_user_transactions db user_id None in
  match transactions with
  | [] => Raise no_data
  | _ :: _ =>
      linear_result <- predict rt LinearPredictor transactions days_ahead ;;
      let linear_regression := model_summary linear_result in
      if TENSORFLOW_AVAILABLE rt && (8 <=? length transactions)%nat then
        match predict rt (LSTMPredictor None) transactions days_ahead with
        | Ok lstm_result =>
            Ok (Comparison.mk user_id days_ahead linear_regression
                  (LstmSummary (model_summary lstm_result)))
        | Raise e =>
            Ok (Comparison.mk user_id days_ahead linear_regression
                  (LstmError (str_exc rt e)))
        end
      else
        Ok (Comparison.mk user_id days_ahead linear_regression
              (LstmText
                 "Not available (requires TensorFlow and at least 8 days of data)"))
  end.

Definition compare_models (user_id : string) (days_ahead : Z)
  : Result Comparison.t :=
  reraise_http "Comparison error: " (compare_models_try user_id days_ahead).

End Handlers.

(** ** Notions the properties are stated with *)

(** The stored records of type ["expense"]. *)
Definition expenses_of (db : list Transaction.t) : list Transaction.t :=
  List.filter (fun t => bool_decide (Transaction.type t = "expense")) db.

(** What one category adds to the insights: its entry and its predicted
    total, or nothing when it is passed over. *)
Definition category_outcome (rt : Runtime) (transactions : list Transaction.t)
    (days_ahead : Z) (category : string) : option (CategoryInsights.t * float) :=
  let cat_transactions := category_transactions category transactions in
  if (length cat_transactions <? 2)%nat then None
  else
    match predict rt LinearPredictor cat_transactions days_ahead with
    | Ok result =>
        let current_avg := mean rt (Transaction.amount <$> cat_transactions) in
        Some (CategoryInsights.mk category current_avg
                (Forecast.avg_daily_spending result) (Forecast.trend result)
                (_generate_recommendation (Forecast.trend result)
                   (Forecast.avg_daily_spending result) current_avg),
              Forecast.total_predicted result)
    | Raise _ => None
    end.

(** The outcomes of the categories of a fetch, in the order of the loop. *)
Definition category_outcomes (rt : Runtime) (transactions : list Transaction.t)
    (days_ahead : Z) : list (CategoryInsights.t * float) :=
  omap (category_outcome rt transactions days_ahead)
    (set_to_list rt (Transaction.category <$> transactions)).

(** The categories listed in a response. *)
Definition listed (r : InsightsResponse.t) : list string :=
  CategoryInsights.category <$> InsightsResponse.categories r.

(** The total of a response is the sum, in the order of the list, of the
    predicted totals of the forecasts of the categories it lists, each of
    which has at least two transactions. *)
Definition total_of_listed (rt : Runtime) (transactions : list Transaction.t)
    (days_ahead : Z) (r : InsightsResponse.t) : Prop :=
  exists results : list Forecast.t,
    Forall2
      (fun ci result =>
         (2 <= length (category_transactions (CategoryInsights.category ci)
                         transactions))%nat
         /\ predict rt LinearPredictor
              (category_transactions (CategoryInsights.category ci)
                 transactions) days_ahead = Ok result
         /\ CategoryInsights.trend ci = Forecast.trend result
         /\ CategoryInsights.predicted_avg ci
            = Forecast.avg_daily_spending result)
      (InsightsResponse.categories r) results
    /\ InsightsResponse.total_predicted_spending r
       = fold_left PrimFloat.add (Forecast.total_predicted <$> results)
           0%float.

(** The number of listed categories with a given trend. *)
Definition with_trend (trend : string) (r : InsightsResponse.t) : nat :=
  length (filter (fun ci => CategoryInsights.trend ci = trend)
            (InsightsResponse.categories r)).

(** The recommendation as the specification words it: the percentage is
    replaced by [0] when [current_avg == 0]. *)
Definition specified_recommendation (trend : string)
    (predicted_avg current_avg : float) : string :=
  if bool_decide (trend = "increasing") then
    let increase_pct :=
      (if current_avg =? 0 then 0
       else (predicted_avg - current_avg) / current_avg * 100)%float in
    ("Seus gastos nesta categoria estão aumentando (~"
     ++ format_1f increase_pct
     ++ "%). Considere estabelecer um limite.")%string
  else if bool_decide (trend = "decreasing") then
    let decrease_pct :=
      (if current_avg =? 0 then 0
       else (current_avg - predicted_avg) / current_avg * 100)%float in
    ("Ótimo! Seus gastos estão diminuindo (~"
     ++ format_1f decrease_pct
     ++ "%). Continue assim!")%string
  else "Seus gastos estão estáveis. Mantenha o controle!".

(** The two texts with a percentage. *)
Definition increasing_text (pct : float) : string :=
  ("Seus gastos nesta categoria estão aumentando (~"
   ++ format_1f pct ++ "%). Considere estabelecer um limite.")%string.

Definition decreasing_text (pct : float) : string :=
  ("Ótimo! Seus gastos estão diminuindo (~"
   ++ format_1f pct ++ "%). Continue assim!")%string.

Definition stable_text : string :=
  "Seus gastos estão estáveis. Mantenha o controle!".

(** ** The order of a fetch *)

(** Not later than: the order [sort("date", 1)] puts the documents in. *)
Definition date_le (t u : Transaction.t) : Prop :=
  Transaction.date t <= Transaction.date u.

(** The query [get_user_transactions] runs for a user and a category. *)
Definition user_query (user_id : string) (category : option string) : Query :=
  if truthy category then mkQuery user_id "expense" category
  else mkQuery user_id "expense" None.

(** ** The connection to the database *)

(** [config.py]: the settings, as loaded from the environment. *)
Record Settings : Type := mkSettings {
  MONGODB_URI : string;
  API_PORT : Z;
  NODE_API_URL : string;
  SECRET_KEY : string
}.

(** A client of the driver: the address it was made for, and whether
    [close()] was called on it. *)
Record MotorClient : Type := mkMotorClient {
  uri : string;
  closed : bool
}.

(** [database.py]: the object [db], whose [client] starts as [None], and
    what the two functions have printed. *)
Record Process : Type := mkProcess {
  client : option MotorClient;
  stdout : list string
}.

Definition started : Process := mkProcess None [].

(** What Python raises for [None.name]. *)
Definition AttributeError_None (name : string) : PyExc :=
  OtherException
    ("'NoneType' object has no attribute '" ++ name ++ "'")%string.

Section Connection.

(** [AsyncIOMotorClient(uri)], which may refuse the address. *)
Variable AsyncIOMotorClient : string -> Result MotorClient.
Variable settings : Settings.

Definition connect_to_mongo (p : Process) : Result Process :=
  c <- AsyncIOMotorClient (MONGODB_URI settings) ;;
  Ok (mkProcess (Some c) (stdout p ++ ["Connected to MongoDB"])).

Definition close_mongo_connection (p : Process) : Result Process :=
  match client p with
  | None => Raise (AttributeError_None "close")
  | Some c =>
      Ok (mkProcess (Some (mkMotorClient (uri c) true))
            (stdout p ++ ["Closed MongoDB connection"]))
  end.

(** [get_database]: [db.client.savemymoney], the client and the name of the
    database. *)
Definition get_database (p : Process) : Result (MotorClient * string) :=
  match client p with
  | None => Raise (AttributeError_None "savemymoney")
  | Some c => Ok (c, "savemymoney")
  end.

(** [lifespan] of [main.py]: connect, let the application run, close. *)
Definition lifespan (app : Process -> Result Process) (p : Process)
  : Result Process :=
  p1 <- connect_to_mongo p ;;
  p2 <- app p1 ;;
  close_mongo_connection p2.

End Connection.

(** ** The handlers in a process *)

(** The handlers as they run in a process: the first thing each [try] block
    does, inside [get_user_transactions], is [get_database()]; [store] is the
    [transactions] collection of the database reached. *)
Section HandlersInProcess.

Variable rt : Runtime.
Variable p : Process.
Variable store : list Transaction.t.

(** The two [except] clauses of [predict_expenses]. *)
Definition prediction_excepts {A : Type} (m : Result A) : Result A :=
  match m with
  | Ok a => Ok a
  | Raise e =>
      if is_ValueError e then Raise (HTTPException 400 (str_exc rt e))
      else Raise (HTTPException 500
                    ("Prediction error: " ++ str_exc rt e)%string)
  end.

Definition predict_expenses_in (request : PredictionRequest.t)
  : Result PredictionResponse.t :=
  prediction_excepts
    (_ <- get_database p ;; predict_expenses_try rt store request).

Definition get_spending_insights_in (user_id : string) (days_ahead : Z)
  : Result InsightsResponse.t :=
  reraise_http rt "Insights error: "
    (_ <- get_database p ;;
     get_spending_insights_try rt store user_id days_ahead).

Definition compare_models_in (user_id : string) (days_ahead : Z)
  : Result Comparison.t :=
  reraise_http rt "Comparison error: "
    (_ <- get_database p ;; compare_models_try rt store user_id days_ahead).

End HandlersInProcess.

(** ** Comparing responses *)

(** A response with another [category] echoed. *)
Definition with_category (category : option string)
    (r : PredictionResponse.t) : PredictionResponse.t :=
  PredictionResponse.mk (PredictionResponse.user_id r) category
    (PredictionResponse.predictions r) (PredictionResponse.model_type r)
    (PredictionResponse.accuracy_score r)
    (PredictionResponse.total_predicted r)
    (PredictionResponse.avg_daily_spending r) (PredictionResponse.trend r)
    (PredictionResponse.created_at r).

Definition map_result {A B : Type} (f : A -> B) (m : Result A) : Result B :=
  match m with
  | Ok a => Ok (f a)
  | Raise e => Raise e
  end.

(** The status of an [HTTPException]. *)
Definition status_of (e : PyExc) : option Z :=
  match e with
  | HTTPException status_code _ => Some status_code
  | _ => None
  end.

(** ** A sample runtime and store *)

Module Sample.

(** Stand-ins for the predictors of [app.ml]: a forecast that repeats the
    last amount, refused when every transaction falls on one day. *)
Definition first_amount (transactions : list Transaction.t) : float :=
  default 0%float (Transaction.amount <$> head transactions).

Definition last_amount (transactions : list Transaction.t) : float :=
  default 0%float (Transaction.amount <$> last transactions).

Definition one_day (transactions : list Transaction.t) : bool :=
  match transactions with
  | [] => true
  | t :: l =>
      forallb (fun u => Transaction.date u =? Transaction.date t) l
  end.

Definition float_of_Z (n : Z) : float := of_uint63 (Uint63.of_Z n).

Definition trend_of (transactions : list Transaction.t) : string :=
  if (first_amount transactions <? last_amount transactions)%float
  then "increasing"
  else if (last_amount transactions <? first_amount transactions)%float
  then "decreasing"
  else "stable".

Definition linear (transactions : list Transaction.t) (days_ahead : Z)
  : Result Forecast.t :=
  if one_day transactions
  then Raise (ValueError "Need at least 2 days of data")
  else Ok (Forecast.mk []
             (last_amount transactions * float_of_Z days_ahead)%float
             (last_amount transactions) (trend_of transactions) None).

Definition lstm (lookback : option Z) (transactions : list Transaction.t)
    (days_ahead : Z) : Result Forecast.t :=
  if Z.of_nat (length transactions) <=? default 7 lookback
  then Raise (ValueError "Insufficient data for LSTM")
  else Ok (Forecast.mk []
             (first_amount transactions * float_of_Z days_ahead)%float
             (first_amount transactions) "stable" (Some (Some 1%float))).

Definition naive_mean (l : list float) : float :=
  (fold_left PrimFloat.add l 0 / float_of_Z (Z.of_nat (length l)))%float.

Definition show (e : PyExc) : string :=
  match e with
  | ValueError msg | OtherException msg => msg
  | ValidationError _ | RequestValidationError _ => "validation error"
  | HTTPException status_code detail =>
      (digits_of_N (Z.to_N status_code) ++ ": " ++ detail)%string
  end.

Definition runtime (tensorflow : bool) : Runtime :=
  mkRuntime tensorflow linear lstm naive_mean show remove_dups
    (fun l x => elem_of_remove_dups l x) (fun l => NoDup_remove_dups l) 0.

Definition expense (id : string) (user : string) (amount : float) (date : Z)
    (category : string) : Transaction.t :=
  Transaction.mk (ObjectId id) (Str user) "" amount date category "expense".

Definition income (id : string) (user : string) (amount : float) (date : Z)
  : Transaction.t :=
  Transaction.mk (ObjectId id) (Str user) "" amount date "salary" "income".

(** The expenses of ["ana"]: three on food, rising; two on rent, on one day;
    one on books; two on travel, falling. *)
Definition expenses : list Transaction.t :=
  [ expense "a1" "ana" 10 1 "food";
    expense "a2" "ana" 700 5 "rent";
    expense "a3" "ana" 20 2 "food";
    expense "a4" "ana" 15 4 "books";
    expense "a5" "ana" 700 5 "rent";
    expense "a6" "ana" 50 6 "travel";
    expense "a7" "ana" 30 3 "food";
    expense "a8" "ana" 40 7 "travel" ].

(** The same store with two incomes and another user's expense. *)
Definition store : list Transaction.t :=
  income "i1" "ana" 3000 1 :: expenses
  ++ [ income "i2" "ana" 3000 8; expense "b1" "bia" 99 2 "food" ].

(** The same runtime with the categories listed in the opposite order. *)
Definition reversed_runtime (tensorflow : bool) : Runtime :=
  mkRuntime tensorflow linear lstm naive_mean show
    (fun l => reverse (remove_dups l))
    (fun l x =>
       iff_trans (elem_of_reverse x (remove_dups l))
         (elem_of_remove_dups l x))
    (fun l =>
       proj2 (NoDup_Permutation_proper _ _
                (reverse_Permutation (remove_dups l)))
         (NoDup_remove_dups l)) 0.

(** A runtime whose LSTM predictor always fails. *)
Definition failing_lstm_runtime : Runtime :=
  mkRuntime true linear
    (fun _ _ _ => Raise (OtherException "training diverged"))
    naive_mean show remove_dups
    (fun l x => elem_of_remove_dups l x) (fun l => NoDup_remove_dups l) 0.

(** A store with one expense more than a fetch returns: a thousand on day 1
    and one on day 2000. *)
Definition crowded : list Transaction.t :=
  replicate 1000 (expense "a" "ana" 5 1 "food")
  ++ [ expense "z" "ana" 5 2000 "food" ].

(** Expenses whose forecasts are far apart in size: about [1e16] for one
    category, [1] for each of two others. *)
Definition uneven : list Transaction.t :=
  [ expense "u1" "ana" 1 1 "rent"; expense "u2" "ana" 1e16 2 "rent";
    expense "u3" "ana" 2 3 "food"; expense "u4" "ana" 1 4 "food";
    expense "u5" "ana" 2 5 "books"; expense "u6" "ana" 1 6 "books" ].

(** A runtime whose linear predictor reports the accuracy it is given. *)
Definition accuracy_runtime (entry : option (option float)) : Runtime :=
  mkRuntime false
    (fun transactions days_ahead =>
       Ok (Forecast.mk [] (last_amount transactions)
             (last_amount transactions) "stable" entry))
    lstm naive_mean show remove_dups
    (fun l x => elem_of_remove_dups l x) (fun l => NoDup_remove_dups l) 0.

(** A driver that accepts every address. *)
Definition motor (uri : string) : Result MotorClient :=
  Ok (mkMotorClient uri false).

Definition settings : Settings :=
  mkSettings "mongodb://localhost:27017/savemymoney" 8000
    "http://localhost:5000" "your-secret-key-change-this".

End Sample.

(** ** The transaction store: what a fetch returns *)

Lemma insert_by_date_perm t l : insert_by_date t l ≡ₚ t :: l.
Proof.
  induction l as [|u l IH]; simpl; [done|].
  destruct (Transaction.date t <=? Transaction.date u); [done|].
  rewrite IH. apply Permutation_swap.
Qed.

Lemma sort_by_date_perm l : sort_by_date l ≡ₚ l.
Proof.
  induction l as [|t l IH]; simpl; [done|].
  rewrite insert_by_date_perm. by rewrite IH.
Qed.

Lemma matches_expense q t :
  q_type q = "expense" -> matches q t = true ->
  Transaction.type t = "expense".
Proof.
  intros Hq Hm. unfold matches in Hm.
  apply andb_prop in Hm as [Hm _]. apply andb_prop in Hm as [_ Hm].
  apply bool_decide_eq_true in Hm. congruence.
Qed.

Lemma filter_matches_expenses q db :
  q_type q = "expense" ->
  List.filter (matches q) (expenses_of db) = List.filter (matches q) db.
Proof.
  intros Hq. unfold expenses_of.
  induction db as [|t db IH]; simpl; [done|].
  destruct (bool_decide (Transaction.type t = "expense")) eqn:Ht; simpl.
  - by rewrite IH.
  - rewrite IH. destruct (matches q t) eqn:Hm; [|done].
    apply (matches_expense q t Hq) in Hm.
    apply bool_decide_eq_false in Ht. done.
Qed.

Lemma get_user_transactions_expenses_of db user_id category :
  get_user_transactions (expenses_of db) user_id category
  = get_user_transactions db user_id category.
Proof.
  unfold get_user_transactions.
  destruct (truthy category); by rewrite filter_matches_expenses.
Qed.

Lemma get_user_transactions_type db user_id category t :
  t ∈ get_user_transactions db user_id category ->
  Transaction.type t = "expense".
Proof.
  unfold get_user_transactions. intros Ht.
  apply list_elem_of_fmap in Ht as (u & -> & Hu). simpl.
  apply (subseteq_take 1000) in Hu.
  rewrite sort_by_date_perm in Hu.
  apply list_elem_of_In, filter_In in Hu as [_ Hu].
  apply (matches_expense _ _) in Hu; [done|].
  by destruct (truthy category).
Qed.

(** ** The prediction handler *)

Lemma is_ValueError_http status_code detail :
  is_ValueError (HTTPException status_code detail) = false.
Proof. reflexivity. Qed.

Lemma predict_expenses_try_no_data rt db request :
  get_user_transactions db (PredictionRequest.user_id request)
    (PredictionRequest.category request) = [] ->
  predict_expenses_try rt db request = Raise no_data.
Proof. unfold predict_expenses_try. by intros ->. Qed.

Lemma predict_expenses_try_data rt db request :
  get_user_transactions db (PredictionRequest.user_id request)
    (PredictionRequest.category request) <> [] ->
  predict_expenses_try rt db request
  = (predictor <- select_predictor rt (PredictionRequest.model_type request) ;;
     result <- predict rt predictor
                 (get_user_transactions db (PredictionRequest.user_id request)
                    (PredictionRequest.category request))
                 (PredictionRequest.days_ahead request) ;;
     Ok (prediction_response rt request result)).
Proof.
  unfold predict_expenses_try. intros Hne.
  by destruct (get_user_transactions _ _ _).
Qed.

Lemma select_predictor_lstm_unavailable rt :
  TENSORFLOW_AVAILABLE rt = false ->
  select_predictor rt "lstm" = Raise lstm_unavailable.
Proof. unfold select_predictor. by intros ->. Qed.

(** An [HTTPException] raised inside the [try] block of [predict_expenses]
    leaves the handler as a 500 that quotes it. *)
Lemma predict_expenses_wraps_http rt db request status_code detail :
  predict_expenses_try rt db request
  = Raise (HTTPException status_code detail) ->
  predict_expenses rt db request
  = Raise (HTTPException 500
             ("Prediction error: "
              ++ str_exc rt (HTTPException status_code detail))%string).
Proof. unfold predict_expenses. by intros ->. Qed.

(** C1, on the code: a request for the ["lstm"] model in a runtime without
    TensorFlow never gets a response, so no other model answers in its place;
    but when the user has transactions the 503 raised for it is caught by the
    handler's own [except Exception] and leaves as a 500. *)
Theorem predict_expenses_lstm_unavailable rt db request :
  TENSORFLOW_AVAILABLE rt = false ->
  PredictionRequest.model_type request = "lstm" ->
  (forall response, predict_expenses rt db request <> Ok response)
  /\ (get_user_transactions db (PredictionRequest.user_id request)
        (PredictionRequest.category request) <> [] ->
      predict_expenses rt db request
      = Raise (HTTPException 500
                 ("Prediction error: " ++ str_exc rt lstm_unavailable)%string)).
Proof.
  intros Htf Hm.
  assert (Hdata :
    get_user_transactions db (PredictionRequest.user_id request)
      (PredictionRequest.category request) <> [] ->
    predict_expenses_try rt db request = Raise lstm_unavailable).
  { intros Hne. rewrite predict_expenses_try_data by done.
    by rewrite Hm, select_predictor_lstm_unavailable. }
  split.
  - intros response.
    destruct (decide (get_user_transactions db
                        (PredictionRequest.user_id request)
                        (PredictionRequest.category request) = []))
      as [Hnil|Hne].
    + rewrite (predict_expenses_wraps_http rt db request 404
                 "No transaction data found for this user"); [done|].
      by apply predict_expenses_try_no_data.
    + unfold lstm_unavailable in Hdata.
      by rewrite (predict_expenses_wraps_http _ _ _ _ _ (Hdata Hne)).
  - intros Hne. unfold lstm_unavailable in *.
    by rewrite (predict_expenses_wraps_http _ _ _ _ _ (Hdata Hne)).
Qed.

Lemma predict_expenses_lstm_unavailable_witness :
  TENSORFLOW_AVAILABLE (Sample.runtime false) = false
  /\ get_user_transactions Sample.store "ana" None <> []
  /\ predict_expenses (Sample.runtime false) Sample.store
       (PredictionRequest.mk "ana" None 30 "lstm")
     = Raise (HTTPException 500
                "Prediction error: 503: LSTM model not available. TensorFlow is not installed. Using linear regression instead.").
Proof.
  split; [reflexivity|]. split; [vm_compute; discriminate|].
  apply (predict_expenses_lstm_unavailable (Sample.runtime false) Sample.store
           (PredictionRequest.mk "ana" None 30 "lstm")); [reflexivity..|].
  vm_compute. discriminate.
Defined.

(** C6, on the code: when the fetch returns nothing, no response is built.
    [get_spending_insights] answers with the 404 it raises; in
    [predict_expenses] the same 404 is caught by the handler's own
    [except Exception] and leaves as a 500. *)
Theorem no_data_responses rt db :
  (forall request,
     get_user_transactions db (PredictionRequest.user_id request)
       (PredictionRequest.category request) = [] ->
     predict_expenses rt db request
     = Raise (HTTPException 500
                ("Prediction error: " ++ str_exc rt no_data)%string))
  /\ (forall user_id days_ahead,
        get_user_transactions db user_id None = [] ->
        get_spending_insights rt db user_id days_ahead = Raise no_data).
Proof.
  split.
  - intros request Hnil. apply predict_expenses_wraps_http.
    by apply predict_expenses_try_no_data.
  - intros user_id days_ahead Hnil.
    unfold get_spending_insights, get_spending_insights_try.
    by rewrite Hnil.
Qed.

Lemma no_data_responses_witness :
  get_user_transactions Sample.store "zed" None = []
  /\ predict_expenses (Sample.runtime true) Sample.store
       (PredictionRequest.mk "zed" None 30 "linear")
     = Raise (HTTPException 500
                "Prediction error: 404: No transaction data found for this user")
  /\ get_spending_insights (Sample.runtime true) Sample.store "zed" 30
     = Raise (HTTPException 404 "No transaction data found for this user").
Proof.
  pose proof (no_data_responses (Sample.runtime true) Sample.store)
    as [Hpredict Hinsights].
  split; [reflexivity|]. split.
  - apply (Hpredict (PredictionRequest.mk "zed" None 30 "linear")).
    reflexivity.
  - apply (Hinsights "zed" 30). reflexivity.
Defined.

(** ** Validation of the request and selection of the model *)

Lemma model_type_pattern_true model_type :
  model_type_pattern model_type = true <->
  model_type = "linear" \/ model_type = "lstm".
Proof.
  unfold model_type_pattern.
  rewrite orb_true_iff, !bool_decide_eq_true. done.
Qed.

Lemma days_ahead_in_range_true days_ahead :
  days_ahead_in_range days_ahead = true <-> 1 <= days_ahead <= 365.
Proof. unfold days_ahead_in_range. lia. Qed.

Lemma validation_errors_nil days_ahead model_type :
  validation_errors days_ahead model_type = [] <->
  days_ahead_in_range days_ahead = true
  /\ model_type_pattern model_type = true.
Proof.
  unfold validation_errors.
  destruct (days_ahead_in_range days_ahead),
    (model_type_pattern model_type); simpl; split; intros; try done;
    by destruct_and?.
Qed.

Lemma PredictionRequest_init_valid user_id category days_ahead model_type :
  days_ahead_in_range days_ahead = true ->
  model_type_pattern model_type = true ->
  PredictionRequest_init user_id category days_ahead model_type
  = Ok (PredictionRequest.mk user_id category days_ahead model_type).
Proof.
  intros Hd Hm. unfold PredictionRequest_init.
  by rewrite (proj2 (validation_errors_nil _ _) (conj Hd Hm)).
Qed.

Lemma PredictionRequest_init_invalid user_id category days_ahead model_type :
  validation_errors days_ahead model_type <> [] ->
  PredictionRequest_init user_id category days_ahead model_type
  = Raise (ValidationError (validation_errors days_ahead model_type)).
Proof.
  unfold PredictionRequest_init.
  by destruct (validation_errors days_ahead model_type).
Qed.

(** C9.  A [model_type] other than ["linear"] and ["lstm"] fails the
    validation of the request: building the request raises a validation
    error that names the field, and the route answers with it before the
    handler runs, whatever the runtime and the store are.  For ["linear"] the
    linear predictor is selected, for ["lstm"] the LSTM predictor with
    [lookback=7] wherever TensorFlow is available; and the response of a
    request with data is built from the forecast of the selected one. *)
Theorem model_type_validated_and_selected rt db user_id category days_ahead :
  (forall model_type,
     model_type <> "linear" -> model_type <> "lstm" ->
     "model_type" ∈ validation_errors days_ahead model_type
     /\ PredictionRequest_init user_id category days_ahead model_type
        = Raise (ValidationError (validation_errors days_ahead model_type))
     /\ post_predict rt db user_id category days_ahead model_type
        = Raise (RequestValidationError
                   (validation_errors days_ahead model_type)))
  /\ select_predictor rt "linear" = Ok LinearPredictor
  /\ (TENSORFLOW_AVAILABLE rt = true ->
      select_predictor rt "lstm" = Ok (LSTMPredictor (Some 7)))
  /\ (forall model_type predictor,
        select_predictor rt model_type = Ok predictor ->
        get_user_transactions db user_id category <> [] ->
        predict_expenses_try rt db
          (PredictionRequest.mk user_id category days_ahead model_type)
        = (result <- predict rt predictor
                       (get_user_transactions db user_id category)
                       days_ahead ;;
           Ok (prediction_response rt
                 (PredictionRequest.mk user_id category days_ahead model_type)
                 result))).
Proof.
  split; [|split; [|split]].
  - intros model_type Hl Hs.
    assert (Hp : model_type_pattern model_type = false).
    { apply not_true_is_false. rewrite model_type_pattern_true. tauto. }
    assert (Hin : "model_type" ∈ validation_errors days_ahead model_type).
    { unfold validation_errors. rewrite Hp.
      apply elem_of_app. right. by apply list_elem_of_singleton. }
    assert (Hne : validation_errors days_ahead model_type <> []).
    { intros Hnil. rewrite Hnil in Hin. by apply not_elem_of_nil in Hin. }
    split; [done|]. split.
    + by apply PredictionRequest_init_invalid.
    + unfold post_predict. by rewrite PredictionRequest_init_invalid.
  - reflexivity.
  - unfold select_predictor. by intros ->.
  - intros model_type predictor Hsel Hne.
    rewrite predict_expenses_try_data by done. simpl. by rewrite Hsel.
Qed.

Lemma model_type_validated_and_selected_witness :
  post_predict (Sample.runtime true) Sample.store "ana" None 30 "arima"
  = Raise (RequestValidationError ["model_type"])
  /\ select_predictor (Sample.runtime true) "lstm"
     = Ok (LSTMPredictor (Some 7))
  /\ predict_expenses_try (Sample.runtime true) Sample.store
       (PredictionRequest.mk "ana" None 30 "lstm")
     = (result <- predict (Sample.runtime true) (LSTMPredictor (Some 7))
                    (get_user_transactions Sample.store "ana" None) 30 ;;
        Ok (prediction_response (Sample.runtime true)
              (PredictionRequest.mk "ana" None 30 "lstm") result)).
Proof.
  pose proof (model_type_validated_and_selected (Sample.runtime true)
                Sample.store "ana" None 30) as (Hbad & _ & Hlstm & Hresp).
  split; [|split].
  - apply (Hbad "arima"); discriminate.
  - apply Hlstm. reflexivity.
  - apply Hresp; [reflexivity|]. vm_compute. discriminate.
Defined.

(** C10.  For a category, a [days_ahead] and a [model_type] that pass the
    validation of the request, [predict_category] returns or raises exactly
    what the route [POST /predict] does for the same four values, which is
    what [predict_expenses] does on the request made of them. *)
Theorem predict_category_as_post rt db user_id category days_ahead model_type :
  1 <= days_ahead <= 365 ->
  model_type = "linear" \/ model_type = "lstm" ->
  predict_category rt db user_id category days_ahead model_type
  = post_predict rt db user_id (Some category) days_ahead model_type
  /\ predict_category rt db user_id category days_ahead model_type
     = predict_expenses rt db
         (PredictionRequest.mk user_id (Some category) days_ahead model_type).
Proof.
  intros Hd%days_ahead_in_range_true Hm%model_type_pattern_true.
  unfold predict_category, post_predict.
  by rewrite PredictionRequest_init_valid.
Qed.

Lemma predict_category_as_post_witness :
  1 <= 30 <= 365
  /\ predict_category (Sample.runtime true) Sample.store "ana" "food" 30 "lstm"
     = post_predict (Sample.runtime true) Sample.store "ana" (Some "food") 30
         "lstm".
Proof.
  split; [lia|].
  apply (predict_category_as_post (Sample.runtime true) Sample.store "ana"
           "food" 30 "lstm"); [lia|by right].
Defined.

(** ** The insights handler *)

Lemma insights_step_outcome rt transactions days_ahead acc category :
  insights_step rt transactions days_ahead acc category
  = match category_outcome rt transactions days_ahead category with
    | Some (insight, total) => (acc.1 ++ [insight], (acc.2 + total)%float)
    | None => acc
    end.
Proof.
  destruct acc as [category_insights total_predicted].
  unfold insights_step, category_outcome.
  destruct (length (category_transactions category transactions) <? 2)%nat;
    [done|].
  by destruct (predict rt LinearPredictor _ days_ahead).
Qed.

(** The loop appends the outcomes of the categories it is given and adds up
    their totals from left to right. *)
Lemma insights_loop rt transactions days_ahead categories acc :
  fold_left (insights_step rt transactions days_ahead) categories acc
  = (acc.1 ++ (omap (category_outcome rt transactions days_ahead)
                 categories).*1,
     fold_left PrimFloat.add
       (omap (category_outcome rt transactions days_ahead) categories).*2
       acc.2).
Proof.
  revert acc. induction categories as [|category categories IH]; intros acc.
  - simpl. rewrite app_nil_r. by destruct acc.
  - cbn [fold_left omap list_omap]. rewrite IH, insights_step_outcome.
    destruct (category_outcome rt transactions days_ahead category)
      as [[insight total]|]; [|done].
    cbn [fst snd fmap list_fmap fold_left]. by rewrite <- app_assoc.
Qed.

Lemma get_spending_insights_data rt db user_id days_ahead :
  let transactions := get_user_transactions db user_id None in
  let outcomes := category_outcomes rt transactions days_ahead in
  transactions <> [] ->
  get_spending_insights rt db user_id days_ahead
  = Ok (InsightsResponse.mk user_id
          (fold_left PrimFloat.add outcomes.*2 0%float) outcomes.*1
          (overall_trend_of outcomes.*1) (datetime_now rt)).
Proof.
  intros transactions outcomes Hne.
  unfold get_spending_insights, get_spending_insights_try.
  fold transactions. destruct transactions as [|t l] eqn:Ht; [done|].
  rewrite insights_loop. reflexivity.
Qed.

Lemma get_spending_insights_Ok rt db user_id days_ahead r :
  get_spending_insights rt db user_id days_ahead = Ok r ->
  let transactions := get_user_transactions db user_id None in
  let outcomes := category_outcomes rt transactions days_ahead in
  transactions <> []
  /\ r = InsightsResponse.mk user_id
           (fold_left PrimFloat.add outcomes.*2 0%float) outcomes.*1
           (overall_trend_of outcomes.*1) (datetime_now rt).
Proof.
  intros Hr transactions outcomes.
  destruct (decide (transactions = [])) as [Hnil|Hne].
  - unfold get_spending_insights, get_spending_insights_try in Hr.
    fold transactions in Hr. by rewrite Hnil in Hr.
  - split; [done|].
    rewrite (get_spending_insights_data rt db user_id days_ahead Hne) in Hr.
    by injection Hr as <-.
Qed.

Lemma category_outcome_Some rt transactions days_ahead category insight total :
  category_outcome rt transactions days_ahead category = Some (insight, total)
  ->
  CategoryInsights.category insight = category
  /\ (2 <= length (category_transactions category transactions))%nat
  /\ exists result,
       predict rt LinearPredictor
         (category_transactions category transactions) days_ahead = Ok result
       /\ CategoryInsights.trend insight = Forecast.trend result
       /\ CategoryInsights.predicted_avg insight
          = Forecast.avg_daily_spending result
       /\ CategoryInsights.current_avg insight
          = mean rt (Transaction.amount
                       <$> category_transactions category transactions)
       /\ CategoryInsights.recommendation insight
          = _generate_recommendation (CategoryInsights.trend insight)
              (CategoryInsights.predicted_avg insight)
              (CategoryInsights.current_avg insight)
       /\ total = Forecast.total_predicted result.
Proof.
  unfold category_outcome.
  destruct (length (category_transactions category transactions) <? 2)%nat
    eqn:Hlen; [done|].
  apply Nat.ltb_ge in Hlen.
  destruct (predict rt LinearPredictor _ days_ahead) as [result|e]; [|done].
  intros [= <- <-]. simpl. eauto 10.
Qed.

Lemma category_outcome_None_short rt transactions days_ahead category :
  (length (category_transactions category transactions) < 2)%nat ->
  category_outcome rt transactions days_ahead category = None.
Proof.
  intros Hlen%Nat.ltb_lt. unfold category_outcome. by rewrite Hlen.
Qed.

Lemma category_outcome_None_raise rt transactions days_ahead category e :
  predict rt LinearPredictor (category_transactions category transactions)
    days_ahead = Raise e ->
  category_outcome rt transactions days_ahead category = None.
Proof.
  intros He. unfold category_outcome. rewrite He.
  by destruct (length _ <? 2)%nat.
Qed.

(** A listed category is one whose outcome was an entry. *)
Lemma listed_outcome rt transactions days_ahead category :
  category ∈ CategoryInsights.category
               <$> (category_outcomes rt transactions days_ahead).*1 ->
  exists insight total,
    category_outcome rt transactions days_ahead category
    = Some (insight, total).
Proof.
  intros Hc.
  apply list_elem_of_fmap in Hc as (insight & -> & Hc).
  apply list_elem_of_fmap in Hc as ([insight' total] & -> & Hc).
  apply list_elem_of_omap in Hc as (category & _ & Hc).
  pose proof (category_outcome_Some _ _ _ _ _ _ Hc) as (<- & _).
  eauto.
Qed.

Lemma outcomes_results rt transactions days_ahead
    (outcomes : list (CategoryInsights.t * float)) :
  Forall (fun o => exists category,
            category_outcome rt transactions days_ahead category = Some o)
    outcomes ->
  exists results : list Forecast.t,
    Forall2
      (fun ci result =>
         (2 <= length (category_transactions (CategoryInsights.category ci)
                         transactions))%nat
         /\ predict rt LinearPredictor
              (category_transactions (CategoryInsights.category ci)
                 transactions) days_ahead = Ok result
         /\ CategoryInsights.trend ci = Forecast.trend result
         /\ CategoryInsights.predicted_avg ci
            = Forecast.avg_daily_spending result)
      outcomes.*1 results
    /\ outcomes.*2 = Forecast.total_predicted <$> results.
Proof.
  induction 1 as [|[insight total] outcomes [category Hc] _ IH].
  - exists []. split; [constructor|done].
  - destruct IH as (results & Hall & Htot).
    apply category_outcome_Some
      in Hc as (<- & Hlen & result & Hres & Htr & Hav & _ & _ & ->).
    exists (result :: results). split.
    + constructor; [|done]. simpl. eauto.
    + rewrite !fmap_cons. by rewrite Htot.
Qed.

Lemma category_outcomes_from rt transactions days_ahead :
  Forall (fun o => exists category,
            category_outcome rt transactions days_ahead category = Some o)
    (category_outcomes rt transactions days_ahead).
Proof.
  apply Forall_forall. intros o Ho.
  apply list_elem_of_omap in Ho as (category & _ & Hc). eauto.
Qed.

Lemma get_spending_insights_total rt db user_id days_ahead r :
  get_spending_insights rt db user_id days_ahead = Ok r ->
  total_of_listed rt (get_user_transactions db user_id None) days_ahead r.
Proof.
  intros (_ & ->)%get_spending_insights_Ok.
  destruct (outcomes_results _ _ _ _
              (category_outcomes_from rt
                 (get_user_transactions db user_id None) days_ahead))
    as (results & Hall & Htot).
  exists results. split; [done|].
  cbn [InsightsResponse.total_predicted_spending]. by rewrite Htot.
Qed.

Lemma get_spending_insights_listed rt db user_id days_ahead r category :
  get_spending_insights rt db user_id days_ahead = Ok r ->
  category ∈ listed r ->
  exists insight total,
    category_outcome rt (get_user_transactions db user_id None) days_ahead
      category = Some (insight, total).
Proof.
  intros (_ & ->)%get_spending_insights_Ok Hc.
  by apply listed_outcome in Hc.
Qed.

Lemma category_transactions_elem category transactions :
  (0 < length (category_transactions category transactions))%nat ->
  category ∈ Transaction.category <$> transactions.
Proof.
  unfold category_transactions. intros Hlen.
  destruct (List.filter _ transactions) as [|t l] eqn:Hf; [simpl in Hlen; lia|].
  assert (Ht : In t (List.filter
                        (fun t => bool_decide (Transaction.category t
                                               = category)) transactions)).
  { rewrite Hf. by left. }
  apply filter_In in Ht as [Ht Hc]. apply bool_decide_eq_true in Hc as <-.
  by apply list_elem_of_fmap_2, list_elem_of_In.
Qed.

(** C3.  On a fetch that is not empty the insights call returns a response,
    whatever the forecasts of the categories do.  A category whose forecast
    raises is not listed; a category with at least two transactions whose
    forecast returns is listed with the trend and the average of that
    forecast; and the total adds up the forecasts of the listed categories
    only. *)
Theorem failing_category_is_skipped rt db user_id days_ahead :
  let transactions := get_user_transactions db user_id None in
  transactions <> [] ->
  exists r,
    get_spending_insights rt db user_id days_ahead = Ok r
    /\ (forall category e,
          predict rt LinearPredictor
            (category_transactions category transactions) days_ahead
          = Raise e ->
          category ∉ listed r)
    /\ (forall category result,
          (2 <= length (category_transactions category transactions))%nat ->
          predict rt LinearPredictor
            (category_transactions category transactions) days_ahead
          = Ok result ->
          exists ci,
            ci ∈ InsightsResponse.categories r
            /\ CategoryInsights.category ci = category
            /\ CategoryInsights.trend ci = Forecast.trend result
            /\ CategoryInsights.predicted_avg ci
               = Forecast.avg_daily_spending result)
    /\ total_of_listed rt transactions days_ahead r.
Proof.
  intros transactions Hne.
  pose proof (get_spending_insights_data rt db user_id days_ahead Hne) as Hr.
  eexists. split; [exact Hr|]. split; [|split].
  - intros category e He Hc.
    destruct (get_spending_insights_listed _ _ _ _ _ _ Hr Hc)
      as (insight & total & Hsome).
    fold transactions in Hsome.
    by rewrite (category_outcome_None_raise _ _ _ _ _ He) in Hsome.
  - intros category result Hlen Hres.
    assert (Hin : category ∈ Transaction.category <$> transactions).
    { apply category_transactions_elem. lia. }
    assert (Hsome : exists insight total,
      category_outcome rt transactions days_ahead category
      = Some (insight, total)).
    { unfold category_outcome. apply Nat.ltb_ge in Hlen.
      rewrite Hlen, Hres. eauto. }
    destruct Hsome as (insight & total & Hsome).
    pose proof (category_outcome_Some _ _ _ _ _ _ Hsome)
      as (Hcat & _ & result' & Hres' & Htr & Hav & _).
    assert (result' = result) as -> by congruence.
    exists insight. split; [|done]. simpl.
    apply (list_elem_of_fmap_2' fst _ (insight, total)); [|done].
    apply list_elem_of_omap. exists category. split; [|done].
    by apply set_to_list_elem.
  - by apply get_spending_insights_total.
Qed.

Lemma failing_category_is_skipped_witness :
  exists r,
    get_spending_insights (Sample.runtime false) Sample.store "ana" 30 = Ok r
    /\ ("rent" ∉ listed r)
    /\ (exists ci, ci ∈ InsightsResponse.categories r
                   /\ CategoryInsights.category ci = "food"
                   /\ CategoryInsights.trend ci = "increasing").
Proof.
  destruct (failing_category_is_skipped (Sample.runtime false) Sample.store
              "ana" 30) as (r & Hr & Hskip & Hcover & _).
  { vm_compute. discriminate. }
  exists r. split; [exact Hr|]. split.
  - apply (Hskip "rent" (ValueError "Need at least 2 days of data")).
    reflexivity.
  - destruct (Hcover "food"
                (Forecast.mk [] 900%float 30%float "increasing" None))
      as (ci & Hci & Hcat & Htr & _).
    + vm_compute. lia.
    + reflexivity.
    + exists ci. auto.
Defined.

(** C4.  On a fetch that is not empty the insights call returns a response
    in which no category with fewer than two transactions is listed, a
    category with exactly one among them, and whose total adds up the
    forecasts of the listed categories only, each of which has at least two
    transactions. *)
Theorem short_category_is_skipped rt db user_id days_ahead :
  let transactions := get_user_transactions db user_id None in
  transactions <> [] ->
  exists r,
    get_spending_insights rt db user_id days_ahead = Ok r
    /\ (forall category,
          (length (category_transactions category transactions) < 2)%nat ->
          category ∉ listed r)
    /\ (forall category,
          length (category_transactions category transactions) = 1%nat ->
          category ∉ listed r)
    /\ total_of_listed rt transactions days_ahead r.
Proof.
  intros transactions Hne.
  pose proof (get_spending_insights_data rt db user_id days_ahead Hne) as Hr.
  assert (Hshort : forall category,
    (length (category_transactions category transactions) < 2)%nat ->
    category ∉ listed
      (InsightsResponse.mk user_id
         (fold_left PrimFloat.add
            (category_outcomes rt transactions days_ahead).*2 0%float)
         (category_outcomes rt transactions days_ahead).*1
         (overall_trend_of (category_outcomes rt transactions days_ahead).*1)
         (datetime_now rt))).
  { intros category Hlen Hc.
    destruct (get_spending_insights_listed _ _ _ _ _ _ Hr Hc)
      as (insight & total & Hsome).
    fold transactions in Hsome.
    by rewrite (category_outcome_None_short _ _ _ _ Hlen) in Hsome. }
  eexists. split; [exact Hr|]. split; [exact Hshort|]. split.
  - intros category Hlen. apply Hshort. lia.
  - by apply get_spending_insights_total.
Qed.

Lemma short_category_is_skipped_witness :
  length (category_transactions "books"
            (get_user_transactions Sample.store "ana" None)) = 1%nat
  /\ exists r,
       get_spending_insights (Sample.runtime false) Sample.store "ana" 30
       = Ok r
       /\ "books" ∉ listed r.
Proof.
  split; [reflexivity|].
  destruct (short_category_is_skipped (Sample.runtime false) Sample.store
              "ana" 30) as (r & Hr & _ & Hone & _).
  { vm_compute. discriminate. }
  exists r. split; [exact Hr|]. apply Hone. reflexivity.
Defined.

Lemma trend_count_filter trend (category_insights : list CategoryInsights.t) :
  trend_count trend category_insights
  = length (filter (fun ci => CategoryInsights.trend ci = trend)
              category_insights).
Proof.
  unfold trend_count.
  induction category_insights as [|ci l IH]; [done|].
  rewrite filter_cons. simpl.
  destruct (decide (CategoryInsights.trend ci = trend)) as [Heq|Hne].
  - rewrite bool_decide_eq_true_2 by done. simpl. by rewrite IH.
  - by rewrite bool_decide_eq_false_2.
Qed.

(** C5.  In a response of the insights call the overall trend is
    ["increasing"] when more of the listed categories are increasing than
    decreasing, ["decreasing"] when more are decreasing than increasing, and
    ["stable"] when the two counts are equal, which covers a response that
    lists no category. *)
Theorem overall_trend_is_majority rt db user_id days_ahead r :
  get_spending_insights rt db user_id days_ahead = Ok r ->
  ((with_trend "decreasing" r < with_trend "increasing" r)%nat ->
   InsightsResponse.overall_trend r = "increasing")
  /\ ((with_trend "increasing" r < with_trend "decreasing" r)%nat ->
      InsightsResponse.overall_trend r = "decreasing")
  /\ (with_trend "increasing" r = with_trend "decreasing" r ->
      InsightsResponse.overall_trend r = "stable")
  /\ (InsightsResponse.categories r = [] ->
      InsightsResponse.overall_trend r = "stable").
Proof.
  intros (_ & ->)%get_spending_insights_Ok.
  unfold with_trend. cbn [InsightsResponse.categories
                            InsightsResponse.overall_trend].
  unfold overall_trend_of. rewrite !trend_count_filter.
  set (inc := length (filter (fun ci => CategoryInsights.trend ci
                                         = "increasing") _)).
  set (dec := length (filter (fun ci => CategoryInsights.trend ci
                                         = "decreasing") _)).
  repeat split.
  - intros Hlt%Nat.ltb_lt. by rewrite Hlt.
  - intros Hlt. rewrite (proj2 (Nat.ltb_ge dec inc)) by lia.
    apply Nat.ltb_lt in Hlt. by rewrite Hlt.
  - intros Heq.
    rewrite (proj2 (Nat.ltb_ge dec inc)), (proj2 (Nat.ltb_ge inc dec)) by lia.
    done.
  - subst inc dec. by intros ->.
Qed.

Lemma overall_trend_is_majority_witness :
  exists r,
    get_spending_insights (Sample.runtime false) Sample.store "ana" 30 = Ok r
    /\ with_trend "increasing" r = with_trend "decreasing" r
    /\ InsightsResponse.overall_trend r = "stable".
Proof.
  destruct (get_spending_insights (Sample.runtime false) Sample.store "ana"
              30) as [r|e] eqn:Hr; [|vm_compute in Hr; discriminate].
  exists r. split; [reflexivity|].
  pose proof (overall_trend_is_majority _ _ _ _ _ Hr) as (_ & _ & Hstable & _).
  vm_compute in Hr. injection Hr as <-.
  split; [reflexivity|]. apply Hstable. reflexivity.
Defined.

(** ** The range of [days_ahead] *)

Lemma days_ahead_out_of_range days_ahead model_type :
  days_ahead < 1 \/ 365 < days_ahead ->
  "days_ahead" ∈ validation_errors days_ahead model_type.
Proof.
  intros Hd. unfold validation_errors.
  assert (days_ahead_in_range days_ahead = false) as ->.
  { apply not_true_is_false. rewrite days_ahead_in_range_true. lia. }
  apply elem_of_app. left. by apply list_elem_of_singleton.
Qed.

Lemma compare_models_try_data rt db user_id days_ahead :
  get_user_transactions db user_id None <> [] ->
  forall e,
    predict rt LinearPredictor (get_user_transactions db user_id None)
      days_ahead = Raise e ->
    compare_models_try rt db user_id days_ahead = Raise e.
Proof.
  intros Hne e He. unfold compare_models_try.
  destruct (get_user_transactions db user_id None); [done|].
  by rewrite He.
Qed.

Lemma compare_models_try_Ok rt db user_id days_ahead result :
  get_user_transactions db user_id None <> [] ->
  predict rt LinearPredictor (get_user_transactions db user_id None)
    days_ahead = Ok result ->
  exists r,
    compare_models_try rt db user_id days_ahead = Ok r
    /\ Comparison.days_ahead r = days_ahead
    /\ Comparison.linear_regression r = model_summary result.
Proof.
  intros Hne Hres. unfold compare_models_try.
  destruct (get_user_transactions db user_id None) as [|t l]; [done|].
  rewrite Hres. cbn [bind].
  destruct (TENSORFLOW_AVAILABLE rt && (8 <=? length (t :: l))%nat);
    [|eauto].
  destruct (predict rt (LSTMPredictor None) (t :: l) days_ahead); eauto.
Qed.

(** C2, on the code: a [days_ahead] outside [1..365] is refused wherever the
    request model is built, by [POST /predict] and by [predict_category];
    [get_spending_insights] and [compare_models] take it as it comes: with
    data the insights call returns a response, and the comparison returns one
    whenever the linear forecast for that [days_ahead] does, and answers a
    [ValueError] of that forecast with a 500, not a 400. *)
Theorem days_ahead_checked_by_request_only rt db user_id days_ahead :
  days_ahead < 1 \/ 365 < days_ahead ->
  (forall category model_type,
     "days_ahead" ∈ validation_errors days_ahead model_type
     /\ post_predict rt db user_id category days_ahead model_type
        = Raise (RequestValidationError
                   (validation_errors days_ahead model_type)))
  /\ (forall category model_type,
        predict_category rt db user_id category days_ahead model_type
        = Raise (ValidationError (validation_errors days_ahead model_type)))
  /\ (get_user_transactions db user_id None <> [] ->
      (exists r, get_spending_insights rt db user_id days_ahead = Ok r)
      /\ (forall result,
            predict rt LinearPredictor (get_user_transactions db user_id None)
              days_ahead = Ok result ->
            exists r, compare_models rt db user_id days_ahead = Ok r
                      /\ Comparison.days_ahead r = days_ahead)
      /\ (forall msg,
            predict rt LinearPredictor (get_user_transactions db user_id None)
              days_ahead = Raise (ValueError msg) ->
            compare_models rt db user_id days_ahead
            = Raise (HTTPException 500
                       ("Comparison error: "
                        ++ str_exc rt (ValueError msg))%string))).
Proof.
  intros Hd.
  assert (Hne : forall model_type,
            validation_errors days_ahead model_type <> []).
  { intros model_type Hnil.
    pose proof (days_ahead_out_of_range days_ahead model_type Hd) as Hin.
    rewrite Hnil in Hin. by apply not_elem_of_nil in Hin. }
  split; [|split].
  - intros category model_type. split; [by apply days_ahead_out_of_range|].
    unfold post_predict. by rewrite PredictionRequest_init_invalid.
  - intros category model_type.
    unfold predict_category. by rewrite PredictionRequest_init_invalid.
  - intros Hdata. split; [|split].
    + eexists. by apply get_spending_insights_data.
    + intros result Hres.
      destruct (compare_models_try_Ok rt db user_id days_ahead result)
        as (r & Hr & Hdays & _); [done..|].
      exists r. unfold compare_models. by rewrite Hr.
    + intros msg Hres. unfold compare_models.
      by rewrite (compare_models_try_data _ _ _ _ Hdata _ Hres).
Qed.

Lemma days_ahead_checked_by_request_only_witness :
  (0 < 1 \/ 365 < 0)
  /\ get_user_transactions Sample.store "ana" None <> []
  /\ exists r,
       get_spending_insights (Sample.runtime false) Sample.store "ana" 0
       = Ok r.
Proof.
  split; [lia|]. split; [vm_compute; discriminate|].
  apply (days_ahead_checked_by_request_only (Sample.runtime false)
           Sample.store "ana" 0); [lia|vm_compute; discriminate].
Defined.

(** ** Only expenses are fetched *)

Lemma get_user_transactions_same_expenses db db' user_id category :
  expenses_of db = expenses_of db' ->
  get_user_transactions db user_id category
  = get_user_transactions db' user_id category.
Proof.
  intros Heq.
  rewrite <- (get_user_transactions_expenses_of db),
    <- (get_user_transactions_expenses_of db').
  by rewrite Heq.
Qed.

(** C7.  Every transaction a fetch returns is of type ["expense"], and two
    stores with the same expense records get the same answer from every
    operation: the records of any other type have no effect on a prediction,
    on the insights or on the comparison. *)
Theorem only_expenses_contribute rt db db' :
  (forall user_id category t,
     t ∈ get_user_transactions db user_id category ->
     Transaction.type t = "expense")
  /\ (expenses_of db = expenses_of db' ->
      (forall request,
         predict_expenses rt db request = predict_expenses rt db' request)
      /\ (forall user_id category days_ahead model_type,
            predict_category rt db user_id category days_ahead model_type
            = predict_category rt db' user_id category days_ahead model_type)
      /\ (forall user_id days_ahead,
            get_spending_insights rt db user_id days_ahead
            = get_spending_insights rt db' user_id days_ahead)
      /\ (forall user_id days_ahead,
            compare_models rt db user_id days_ahead
            = compare_models rt db' user_id days_ahead)).
Proof.
  split.
  - intros user_id category t. apply get_user_transactions_type.
  - intros Heq.
    assert (Hpredict : forall request,
      predict_expenses rt db request = predict_expenses rt db' request).
    { intros request. unfold predict_expenses, predict_expenses_try.
      by rewrite (get_user_transactions_same_expenses db db' _ _ Heq). }
    split; [done|]. split; [|split].
    + intros user_id category days_ahead model_type.
      unfold predict_category.
      destruct (PredictionRequest_init _ _ _ _); simpl; [apply Hpredict|done].
    + intros user_id days_ahead.
      unfold get_spending_insights, get_spending_insights_try.
      by rewrite (get_user_transactions_same_expenses db db' _ _ Heq).
    + intros user_id days_ahead. unfold compare_models, compare_models_try.
      by rewrite (get_user_transactions_same_expenses db db' _ _ Heq).
Qed.

Lemma only_expenses_contribute_witness :
  expenses_of Sample.store <> Sample.store
  /\ expenses_of Sample.store = expenses_of (expenses_of Sample.store)
  /\ get_spending_insights (Sample.runtime false) Sample.store "ana" 30
     = get_spending_insights (Sample.runtime false)
         (expenses_of Sample.store) "ana" 30.
Proof.
  split; [vm_compute; discriminate|]. split; [reflexivity|].
  apply (only_expenses_contribute (Sample.runtime false) Sample.store
           (expenses_of Sample.store)).
  reflexivity.
Defined.

(** ** The recommendation *)

Lemma eqb_zero_not_positive (x : float) :
  (x =? 0)%float = true -> (0 <? x)%float = false.
Proof.
  rewrite FloatAxioms.eqb_spec, FloatAxioms.ltb_spec.
  change (Prim2SF 0) with (S754_zero false).
  destruct (Prim2SF x) as [s|s| |s m e]; try destruct s; done.
Qed.

Lemma recommendation_increasing predicted_avg current_avg :
  _generate_recommendation "increasing" predicted_avg current_avg
  = increasing_text
      (if 0 <? current_avg
       then (predicted_avg - current_avg) / current_avg * 100
       else 0)%float.
Proof. reflexivity. Qed.

Lemma recommendation_decreasing predicted_avg current_avg :
  _generate_recommendation "decreasing" predicted_avg current_avg
  = decreasing_text
      (if 0 <? current_avg
       then (current_avg - predicted_avg) / current_avg * 100
       else 0)%float.
Proof. reflexivity. Qed.

Lemma recommendation_stable trend predicted_avg current_avg :
  trend <> "increasing" -> trend <> "decreasing" ->
  _generate_recommendation trend predicted_avg current_avg = stable_text.
Proof.
  intros Hi Hd. unfold _generate_recommendation.
  by rewrite !bool_decide_eq_false_2.
Qed.

Lemma nonnegative_not_zero_positive (x : float) :
  (0 <=? x)%float = true -> (x =? 0)%float = false -> (0 <? x)%float = true.
Proof.
  rewrite FloatAxioms.leb_spec, FloatAxioms.eqb_spec, FloatAxioms.ltb_spec.
  change (Prim2SF 0) with (S754_zero false).
  destruct (Prim2SF x) as [s|s| |s m e]; try destruct s; done.
Qed.

(** On an average that is not negative, the test [current_avg > 0] of the
    code fails exactly when [current_avg == 0]. *)
Lemma positive_guard_on_nonnegative (x : float) :
  (0 <=? x)%float = true -> (0 <? x)%float = negb (x =? 0)%float.
Proof.
  intros Hx. destruct (x =? 0)%float eqn:Hz; simpl.
  - by apply eqb_zero_not_positive.
  - by apply nonnegative_not_zero_positive.
Qed.

(** C8.  The recommendation of every listed category is
    [_generate_recommendation] of its trend, predicted average and current
    average, a function of these three.  On a current average that is not
    negative (amounts are not negative) it is the text the specification
    words: for ["increasing"], the percentage
    [(predicted_avg - current_avg) / current_avg * 100] with the advice to
    set a limit, the percentage being [0] when [current_avg == 0]; for
    ["decreasing"], the percentage
    [(current_avg - predicted_avg) / current_avg * 100] under the same guard
    with the encouragement; for any other trend, the fixed text. *)
Theorem recommendation_as_specified rt db user_id days_ahead :
  (forall r ci,
     get_spending_insights rt db user_id days_ahead = Ok r ->
     ci ∈ InsightsResponse.categories r ->
     CategoryInsights.recommendation ci
     = _generate_recommendation (CategoryInsights.trend ci)
         (CategoryInsights.predicted_avg ci)
         (CategoryInsights.current_avg ci))
  /\ (forall trend (predicted_avg current_avg : float),
        (0 <=? current_avg)%float = true ->
        _generate_recommendation trend predicted_avg current_avg
        = specified_recommendation trend predicted_avg current_avg)
  /\ (forall predicted_avg current_avg : float,
        (0 <=? current_avg)%float = true ->
        ((current_avg =? 0)%float = true ->
         _generate_recommendation "increasing" predicted_avg current_avg
         = increasing_text 0
         /\ _generate_recommendation "decreasing" predicted_avg current_avg
            = decreasing_text 0)
        /\ ((current_avg =? 0)%float = false ->
            _generate_recommendation "increasing" predicted_avg current_avg
            = increasing_text
                ((predicted_avg - current_avg) / current_avg * 100)%float
            /\ _generate_recommendation "decreasing" predicted_avg
                 current_avg
               = decreasing_text
                   ((current_avg - predicted_avg) / current_avg * 100)%float))
  /\ (forall trend (predicted_avg current_avg : float),
        trend <> "increasing" -> trend <> "decreasing" ->
        _generate_recommendation trend predicted_avg current_avg
        = stable_text).
Proof.
  split; [|split; [|split]].
  - intros r ci (_ & ->)%get_spending_insights_Ok Hci.
    cbn [InsightsResponse.categories] in Hci.
    apply list_elem_of_fmap in Hci as ([ci' total] & -> & Hci).
    apply list_elem_of_omap in Hci as (category & _ & Hc).
    by apply category_outcome_Some
      in Hc as (_ & _ & result & _ & _ & _ & _ & Hrec & _).
  - intros trend predicted_avg current_avg Hc.
    unfold _generate_recommendation, specified_recommendation.
    rewrite (positive_guard_on_nonnegative _ Hc).
    by destruct (current_avg =? 0)%float.
  - intros predicted_avg current_avg Hc.
    rewrite recommendation_increasing, recommendation_decreasing.
    rewrite (positive_guard_on_nonnegative _ Hc).
    split; by intros ->.
  - intros trend predicted_avg current_avg. apply recommendation_stable.
Qed.

Lemma recommendation_as_specified_witness :
  (0 <=? 10)%float = true
  /\ _generate_recommendation "increasing" 12 10
     = specified_recommendation "increasing" 12 10
  /\ _generate_recommendation "increasing" 12 10 = increasing_text 20
  /\ _generate_recommendation "decreasing" 12 0 = decreasing_text 0.
Proof.
  pose proof (recommendation_as_specified (Sample.runtime false) Sample.store
                "ana" 30) as (_ & Hspec & Hcases & _).
  split; [reflexivity|]. split; [by apply Hspec|]. split.
  - destruct (Hcases 12%float 10%float eq_refl) as [_ Hpos].
    destruct (Hpos eq_refl) as [Hinc _]. exact Hinc.
  - destruct (Hcases 12%float 0%float eq_refl) as [Hzero _].
    destruct (Hzero eq_refl) as [_ Hdec]. exact Hdec.
Defined.

(** ** More on what a fetch returns *)

#[local] Instance date_le_trans : Transitive date_le.
Proof. unfold Transitive, date_le. lia. Qed.

Lemma insert_by_date_sorted t l :
  StronglySorted date_le l -> StronglySorted date_le (insert_by_date t l).
Proof.
  induction 1 as [|u l Hl IH Hu]; simpl.
  - repeat constructor.
  - destruct (Transaction.date t <=? Transaction.date u) eqn:Hle.
    + apply Z.leb_le in Hle. constructor; [by constructor|].
      constructor; [done|].
      eapply Forall_impl; [exact Hu|]. intros v Hv. unfold date_le in *. lia.
    + apply Z.leb_gt in Hle. constructor; [done|].
      rewrite insert_by_date_perm. constructor; [|done].
      unfold date_le. lia.
Qed.

Lemma sort_by_date_sorted l : StronglySorted date_le (sort_by_date l).
Proof.
  induction l as [|t l IH]; simpl; [constructor|].
  by apply insert_by_date_sorted.
Qed.

Lemma stringify_date t : Transaction.date (stringify t) = Transaction.date t.
Proof. reflexivity. Qed.

Lemma get_user_transactions_unfold db user_id category :
  get_user_transactions db user_id category
  = stringify
    <$> take 1000
          (sort_by_date (List.filter (matches (user_query user_id category))
                           db)).
Proof.
  unfold get_user_transactions, user_query. by destruct (truthy category).
Qed.

(** X1.  The transactions of a fetch come in ascending order of date. *)
Theorem fetch_sorted_by_date db user_id category :
  StronglySorted date_le (get_user_transactions db user_id category).
Proof.
  rewrite get_user_transactions_unfold.
  apply (StronglySorted_fmap stringify date_le date_le); [done|].
  pose proof (sort_by_date_sorted
                (List.filter (matches (user_query user_id category)) db))
    as Hs.
  rewrite <- (take_drop 1000) in Hs.
  by apply StronglySorted_app_1_l in Hs.
Qed.

Lemma user_query_type user_id category :
  q_type (user_query user_id category) = "expense".
Proof. unfold user_query. by destruct (truthy category). Qed.

Lemma user_query_user user_id category :
  q_user (user_query user_id category) = user_id.
Proof. unfold user_query. by destruct (truthy category). Qed.

Lemma fetched_from db user_id category t :
  t ∈ get_user_transactions db user_id category ->
  exists u, t = stringify u /\ u ∈ db
            /\ matches (user_query user_id category) u = true.
Proof.
  rewrite get_user_transactions_unfold. intros Ht.
  apply list_elem_of_fmap in Ht as (u & -> & Hu).
  apply (subseteq_take 1000) in Hu. rewrite sort_by_date_perm in Hu.
  apply list_elem_of_In, filter_In in Hu as [Hu Hm].
  exists u. by rewrite list_elem_of_In.
Qed.

Lemma fetch_length db user_id category :
  (length (get_user_transactions db user_id category) <= 1000)%nat.
Proof.
  rewrite get_user_transactions_unfold, length_fmap, length_take. lia.
Qed.

(** X2.  A fetch returns at most 1000 transactions; each of them is an
    expense of the user asked for, of the category asked for when one was
    given and is not the empty string, with [_id] and [user] turned into
    strings. *)
Theorem fetch_records db user_id category :
  (length (get_user_transactions db user_id category) <= 1000)%nat
  /\ (forall t,
        t ∈ get_user_transactions db user_id category ->
        Transaction.user t = Str user_id
        /\ Transaction.type t = "expense"
        /\ (exists s, Transaction._id t = Str s)
        /\ (forall c, category = Some c -> c <> "" ->
                      Transaction.category t = c)).
Proof.
  split; [apply fetch_length|].
  intros t (u & -> & _ & Hm)%fetched_from.
  unfold matches in Hm.
  apply andb_prop in Hm as [Hm Hcat]. apply andb_prop in Hm as [Huser Htype].
  apply bool_decide_eq_true in Huser, Htype.
  rewrite user_query_user in Huser. rewrite user_query_type in Htype.
  split; [|split; [|split]].
  - simpl. by rewrite Huser.
  - done.
  - simpl. destruct (Transaction._id u); eauto.
  - intros c -> Hc. simpl. unfold user_query, truthy in Hcat.
    rewrite bool_decide_eq_false_2 in Hcat by done. simpl in Hcat.
    by apply bool_decide_eq_true in Hcat.
Qed.

Lemma fetch_records_witness :
  stringify (Sample.expense "a3" "ana" 20 2 "food")
    ∈ get_user_transactions Sample.store "ana" (Some "food")
  /\ Transaction.category (stringify (Sample.expense "a3" "ana" 20 2 "food"))
     = "food".
Proof.
  assert (Hin : stringify (Sample.expense "a3" "ana" 20 2 "food")
                  ∈ get_user_transactions Sample.store "ana" (Some "food")).
  { vm_compute. apply list_elem_of_further, list_elem_of_here. }
  split; [exact Hin|].
  destruct (fetch_records Sample.store "ana" (Some "food")) as [_ Hrec].
  destruct (Hrec _ Hin) as (_ & _ & _ & Hcat).
  apply (Hcat "food"); [reflexivity|discriminate].
Defined.

(** X3.  When more than 1000 transactions match, the fetch keeps the earliest
    ones: a matching transaction of the store that was left out is not
    earlier than any transaction of the fetch. *)
Theorem fetch_keeps_earliest db user_id category t u :
  t ∈ get_user_transactions db user_id category ->
  u ∈ db ->
  matches (user_query user_id category) u = true ->
  stringify u ∉ get_user_transactions db user_id category ->
  Transaction.date t <= Transaction.date u.
Proof.
  rewrite get_user_transactions_unfold.
  set (sorted := sort_by_date
                   (List.filter (matches (user_query user_id category)) db)).
  intros Ht Hu Hm Hout.
  apply list_elem_of_fmap in Ht as (t' & -> & Ht').
  assert (Hin : u ∈ sorted).
  { unfold sorted. rewrite sort_by_date_perm.
    apply list_elem_of_In, filter_In. by rewrite <- list_elem_of_In. }
  rewrite <- (take_drop 1000 sorted) in Hin.
  apply elem_of_app in Hin as [Hin|Hin].
  - destruct Hout. by apply list_elem_of_fmap_2.
  - pose proof (sort_by_date_sorted
                  (List.filter (matches (user_query user_id category)) db))
      as Hs.
    fold sorted in Hs. rewrite <- (take_drop 1000 sorted) in Hs.
    apply (StronglySorted_app_1_elem_of _ _ _ _ _ Hs Ht' Hin).
Qed.

Lemma fetch_keeps_earliest_witness :
  (stringify (Sample.expense "z" "ana" 5 2000 "food")
     ∉ get_user_transactions Sample.crowded "ana" None)
  /\ Transaction.date (stringify (Sample.expense "a" "ana" 5 1 "food"))
     <= Transaction.date (Sample.expense "z" "ana" 5 2000 "food").
Proof.
  assert (Hout : stringify (Sample.expense "z" "ana" 5 2000 "food")
                   ∉ get_user_transactions Sample.crowded "ana" None).
  { intros Hin. apply list_elem_of_In in Hin.
    assert (Hall : forallb (fun t => Transaction.date t =? 1)
                     (get_user_transactions Sample.crowded "ana" None) = true)
      by (vm_compute; reflexivity).
    rewrite forallb_forall in Hall. apply Hall in Hin. discriminate. }
  split; [exact Hout|].
  apply (fetch_keeps_earliest Sample.crowded "ana" None
           (stringify (Sample.expense "a" "ana" 5 1 "food"))
           (Sample.expense "z" "ana" 5 2000 "food"));
    [| |reflexivity|exact Hout].
  - vm_compute. apply list_elem_of_here.
  - apply elem_of_app. right. by apply list_elem_of_singleton.
Defined.

(** ** A category fetch and the category filter of a fetch *)

Lemma insert_by_date_front t l :
  Forall (date_le t) l -> insert_by_date t l = t :: l.
Proof.
  destruct 1 as [|u l Hu _]; simpl; [done|].
  unfold date_le in Hu. apply Z.leb_le in Hu. by rewrite Hu.
Qed.

Lemma filter_Forall {A} (P : A -> Prop) (f : A -> bool) (l : list A) :
  Forall P l -> Forall P (List.filter f l).
Proof.
  induction 1 as [|x l Hx _ IH]; simpl; [constructor|].
  destruct (f x); [by constructor|done].
Qed.

Lemma length_List_filter {A} (f : A -> bool) (l : list A) :
  (length (List.filter f l) <= length l)%nat.
Proof.
  induction l as [|x l IH]; simpl; [done|]. destruct (f x); simpl; lia.
Qed.

Lemma filter_insert_by_date (f : Transaction.t -> bool) t l :
  StronglySorted date_le l ->
  List.filter f (insert_by_date t l)
  = if f t then insert_by_date t (List.filter f l) else List.filter f l.
Proof.
  induction 1 as [|u l Hl IH Hu]; simpl.
  - by destruct (f t).
  - destruct (Transaction.date t <=? Transaction.date u) eqn:Hle; simpl.
    + apply Z.leb_le in Hle.
      destruct (f t) eqn:Hft; [|done].
      rewrite insert_by_date_front; [done|].
      assert (Hall : Forall (date_le t) (u :: l)).
      { constructor; [done|]. eapply Forall_impl; [exact Hu|].
        intros v Hv. by transitivity u. }
      change (Forall (date_le t) (List.filter f (u :: l))).
      by apply filter_Forall.
    + rewrite IH. destruct (f u), (f t); simpl; by rewrite ?Hle.
Qed.

(** Filtering commutes with the sort by date. *)
Lemma filter_sort_by_date (f : Transaction.t -> bool) l :
  List.filter f (sort_by_date l) = sort_by_date (List.filter f l).
Proof.
  induction l as [|t l IH]; simpl; [done|].
  rewrite filter_insert_by_date by apply sort_by_date_sorted.
  rewrite IH. by destruct (f t).
Qed.

Lemma filter_stringify (f : Transaction.t -> bool) l :
  (forall t, f (stringify t) = f t) ->
  List.filter f (stringify <$> l) = stringify <$> List.filter f l.
Proof.
  intros Hf. induction l as [|t l IH]; [done|].
  cbn [fmap list_fmap List.filter]. fold (fmap stringify l).
  rewrite Hf, IH. by destruct (f t).
Qed.

Lemma filter_category_matches user_id c db :
  c <> "" ->
  List.filter (fun t => bool_decide (Transaction.category t = c))
    (List.filter (matches (user_query user_id None)) db)
  = List.filter (matches (user_query user_id (Some c))) db.
Proof.
  intros Hc.
  assert (Hm : forall t,
    matches (user_query user_id (Some c)) t
    = matches (user_query user_id None) t
      && bool_decide (Transaction.category t = c)).
  { intros t. unfold user_query, truthy, matches.
    rewrite (bool_decide_eq_false_2 (c = "")) by done. simpl.
    by rewrite andb_true_r. }
  induction db as [|t db IH]; simpl; [done|].
  rewrite Hm. destruct (matches (user_query user_id None) t); simpl.
  - rewrite IH. done.
  - done.
Qed.

Lemma category_transactions_of_fetch db user_id c :
  (length (List.filter (matches (user_query user_id None)) db) <= 1000)%nat ->
  c <> "" ->
  category_transactions c (get_user_transactions db user_id None)
  = get_user_transactions db user_id (Some c).
Proof.
  intros Hlen Hc. rewrite !get_user_transactions_unfold.
  unfold category_transactions.
  rewrite filter_stringify by done.
  rewrite take_ge by (by rewrite sort_by_date_perm).
  rewrite filter_sort_by_date, filter_category_matches by done.
  rewrite take_ge; [done|].
  rewrite sort_by_date_perm, <- (filter_category_matches user_id c db Hc).
  etrans; [|exact Hlen]. apply length_List_filter.
Qed.

(** X4.  For a user with at most 1000 expenses in the store, the fetch for a
    category (not the empty string) is the category filter of the fetch of
    all categories, so the insights forecast a category from the
    transactions the prediction for that category uses: every category the
    insights list is one for which the linear prediction of that category
    succeeds, with the trend and the daily average the insights report. *)
Theorem insights_agree_with_category_prediction rt db user_id days_ahead :
  (length (List.filter (matches (user_query user_id None)) db) <= 1000)%nat ->
  (forall c,
     c <> "" ->
     category_transactions c (get_user_transactions db user_id None)
     = get_user_transactions db user_id (Some c))
  /\ (forall r ci,
        get_spending_insights rt db user_id days_ahead = Ok r ->
        ci ∈ InsightsResponse.categories r ->
        CategoryInsights.category ci <> "" ->
        exists response,
          predict_expenses rt db
            (PredictionRequest.mk user_id
               (Some (CategoryInsights.category ci)) days_ahead "linear")
          = Ok response
          /\ PredictionResponse.trend response = CategoryInsights.trend ci
          /\ PredictionResponse.avg_daily_spending response
             = CategoryInsights.predicted_avg ci).
Proof.
  intros Hlen. split; [intros c Hc; by apply category_transactions_of_fetch|].
  intros r ci Hr Hci Hc.
  apply get_spending_insights_Ok in Hr as [_ ->].
  cbn [InsightsResponse.categories] in Hci.
  apply list_elem_of_fmap in Hci as ([ci' total'] & -> & Hci).
  apply list_elem_of_omap in Hci as (category & _ & Hout).
  pose proof (category_outcome_Some _ _ _ _ _ _ Hout)
    as (Hcat & Hlen2 & result & Hres & Htr & Hav & _).
  cbn [fst] in *. subst category.
  rewrite category_transactions_of_fetch in Hres, Hlen2 by done.
  exists (prediction_response rt
            (PredictionRequest.mk user_id
               (Some (CategoryInsights.category ci')) days_ahead "linear")
            result).
  split; [|by split].
  unfold predict_expenses. rewrite predict_expenses_try_data.
  - cbn [PredictionRequest.model_type PredictionRequest.user_id
           PredictionRequest.category PredictionRequest.days_ahead].
    change (select_predictor rt "linear") with (@Ok Predictor LinearPredictor).
    cbn [bind]. by rewrite Hres.
  - cbn [PredictionRequest.user_id PredictionRequest.category].
    intros Hnil. rewrite Hnil in Hlen2. simpl in Hlen2. lia.
Qed.

Lemma insights_agree_with_category_prediction_witness :
  category_transactions "food" (get_user_transactions Sample.store "ana" None)
  = get_user_transactions Sample.store "ana" (Some "food")
  /\ exists response,
       predict_expenses (Sample.runtime false) Sample.store
         (PredictionRequest.mk "ana" (Some "travel") 30 "linear")
       = Ok response
       /\ PredictionResponse.trend response = "decreasing".
Proof.
  destruct (insights_agree_with_category_prediction (Sample.runtime false)
              Sample.store "ana" 30) as [Hfetch Hagree];
    [vm_compute; lia|].
  split; [apply Hfetch; discriminate|].
  destruct (get_spending_insights (Sample.runtime false) Sample.store "ana"
              30) as [r|e] eqn:Hr; [|vm_compute in Hr; discriminate].
  specialize (Hagree r).
  vm_compute in Hr. injection Hr as <-.
  destruct (Hagree
    (CategoryInsights.mk "travel" 45 40 "decreasing"
       "Ótimo! Seus gastos estão diminuindo (~11.1%). Continue assim!"))
    as (response & Hresp & Htrend & _).
  - reflexivity.
  - apply list_elem_of_further, list_elem_of_here.
  - discriminate.
  - exists response. split; [exact Hresp|exact Htrend].
Defined.

(** ** More on the prediction handler *)

Lemma predict_expenses_excepts rt db request :
  predict_expenses rt db request
  = prediction_excepts rt (predict_expenses_try rt db request).
Proof. reflexivity. Qed.

(** X5.  A request whose category is the empty string is answered from all
    the expenses of the user, like a request without category: the answers
    differ by the category the response echoes only. *)
Theorem empty_category_is_no_filter rt db user_id days_ahead model_type :
  get_user_transactions db user_id (Some "")
  = get_user_transactions db user_id None
  /\ predict_expenses rt db
       (PredictionRequest.mk user_id (Some "") days_ahead model_type)
     = map_result (with_category (Some ""))
         (predict_expenses rt db
            (PredictionRequest.mk user_id None days_ahead model_type)).
Proof.
  split; [reflexivity|].
  rewrite !predict_expenses_excepts. unfold predict_expenses_try.
  cbn [PredictionRequest.user_id PredictionRequest.category
         PredictionRequest.model_type PredictionRequest.days_ahead].
  change (get_user_transactions db user_id (Some ""))
    with (get_user_transactions db user_id None).
  destruct (get_user_transactions db user_id None) as [|t l]; [done|].
  destruct (select_predictor rt model_type) as [predictor|e]; simpl.
  - destruct (predict rt predictor (t :: l) days_ahead) as [result|e];
      simpl; [done|].
    by destruct (is_ValueError e).
  - by destruct (is_ValueError e).
Qed.

(** What the [except] clauses of [predict_expenses] make of an exception. *)
Lemma prediction_excepts_Raise rt {A} (e0 : PyExc) :
  prediction_excepts rt (@Raise A e0)
  = Raise (if is_ValueError e0 then HTTPException 400 (str_exc rt e0)
           else HTTPException 500
                  ("Prediction error: " ++ str_exc rt e0)%string).
Proof. simpl. by destruct (is_ValueError e0). Qed.

(** X6.  An exception [e0] raised by the selected predictor leaves
    [predict_expenses] as a 400 with the text of [e0] when [e0] is a
    [ValueError], and as a 500 with ["Prediction error: "] and the text of
    [e0] otherwise.  Conversely every error that leaves the handler is made
    in this way from the exception raised in its [try] block, which is the
    404 of an empty fetch, the 503 of the selection, or an exception of the
    selected predictor: so its status is 400 or 500, and 400 exactly for a
    [ValueError]. *)
Theorem predict_expenses_error_status rt db request :
  (forall predictor e0,
     get_user_transactions db (PredictionRequest.user_id request)
       (PredictionRequest.category request) <> [] ->
     select_predictor rt (PredictionRequest.model_type request)
     = Ok predictor ->
     predict rt predictor
       (get_user_transactions db (PredictionRequest.user_id request)
          (PredictionRequest.category request))
       (PredictionRequest.days_ahead request) = Raise e0 ->
     predict_expenses rt db request
     = Raise (if is_ValueError e0 then HTTPException 400 (str_exc rt e0)
              else HTTPException 500
                     ("Prediction error: " ++ str_exc rt e0)%string))
  /\ (forall predictor msg,
        get_user_transactions db (PredictionRequest.user_id request)
          (PredictionRequest.category request) <> [] ->
        select_predictor rt (PredictionRequest.model_type request)
        = Ok predictor ->
        predict rt predictor
          (get_user_transactions db (PredictionRequest.user_id request)
             (PredictionRequest.category request))
          (PredictionRequest.days_ahead request) = Raise (ValueError msg) ->
        predict_expenses rt db request
        = Raise (HTTPException 400 (str_exc rt (ValueError msg))))
  /\ (forall e,
        predict_expenses rt db request = Raise e ->
        exists e0,
          ((get_user_transactions db (PredictionRequest.user_id request)
              (PredictionRequest.category request) = []
            /\ e0 = no_data)
           \/ (get_user_transactions db (PredictionRequest.user_id request)
                 (PredictionRequest.category request) <> []
               /\ select_predictor rt (PredictionRequest.model_type request)
                  = Raise e0
               /\ e0 = lstm_unavailable)
           \/ (get_user_transactions db (PredictionRequest.user_id request)
                 (PredictionRequest.category request) <> []
               /\ exists predictor,
                    select_predictor rt
                      (PredictionRequest.model_type request) = Ok predictor
                    /\ predict rt predictor
                         (get_user_transactions db
                            (PredictionRequest.user_id request)
                            (PredictionRequest.category request))
                         (PredictionRequest.days_ahead request)
                       = Raise e0))
          /\ e = (if is_ValueError e0 then HTTPException 400 (str_exc rt e0)
                  else HTTPException 500
                         ("Prediction error: " ++ str_exc rt e0)%string)
          /\ (status_of e = Some 400 \/ status_of e = Some 500)
          /\ (status_of e = Some 400 <-> is_ValueError e0 = true)).
Proof.
  assert (Hforward : forall predictor e0,
    get_user_transactions db (PredictionRequest.user_id request)
      (PredictionRequest.category request) <> [] ->
    select_predictor rt (PredictionRequest.model_type request)
    = Ok predictor ->
    predict rt predictor
      (get_user_transactions db (PredictionRequest.user_id request)
         (PredictionRequest.category request))
      (PredictionRequest.days_ahead request) = Raise e0 ->
    predict_expenses rt db request
    = Raise (if is_ValueError e0 then HTTPException 400 (str_exc rt e0)
             else HTTPException 500
                    ("Prediction error: " ++ str_exc rt e0)%string)).
  { intros predictor e0 Hne Hsel Hres.
    rewrite predict_expenses_excepts, predict_expenses_try_data by done.
    rewrite Hsel. cbn [bind]. rewrite Hres. cbn [bind].
    apply prediction_excepts_Raise. }
  split; [exact Hforward|]. split.
  { intros predictor msg Hne Hsel Hres.
    by rewrite (Hforward predictor (ValueError msg) Hne Hsel Hres). }
  intros e. rewrite predict_expenses_excepts.
  assert (Hwrap : forall e0,
    prediction_excepts rt (@Raise PredictionResponse.t e0) = Raise e ->
    e = (if is_ValueError e0 then HTTPException 400 (str_exc rt e0)
         else HTTPException 500
                ("Prediction error: " ++ str_exc rt e0)%string)
    /\ (status_of e = Some 400 \/ status_of e = Some 500)
    /\ (status_of e = Some 400 <-> is_ValueError e0 = true)).
  { intros e0. rewrite prediction_excepts_Raise. intros [= <-].
    destruct (is_ValueError e0); simpl; split; try done;
      split; auto; split; done. }
  destruct (decide (get_user_transactions db
                      (PredictionRequest.user_id request)
                      (PredictionRequest.category request) = []))
    as [Hnil|Hne].
  { rewrite predict_expenses_try_no_data by done. intros He.
    exists no_data. split; [by left|]. by apply Hwrap. }
  rewrite predict_expenses_try_data by done.
  destruct (select_predictor rt (PredictionRequest.model_type request))
    as [predictor|e1] eqn:Hsel; cbn [bind].
  - destruct (predict rt predictor _ _) as [result|e1] eqn:Hres;
      cbn [bind]; [done|].
    intros He. exists e1. split; [|by apply Hwrap].
    right. right. split; [done|]. by exists predictor.
  - intros He. exists e1. split; [|by apply Hwrap].
    right. left. split; [done|]. split; [done|].
    unfold select_predictor in Hsel.
    destruct (bool_decide _); [|done].
    destruct (negb _); [|done]. by injection Hsel as <-.
Qed.

Lemma predict_expenses_error_status_witness :
  predict (Sample.runtime true) LinearPredictor
    (get_user_transactions Sample.store "ana" (Some "rent")) 30
  = Raise (ValueError "Need at least 2 days of data")
  /\ predict_expenses (Sample.runtime true) Sample.store
       (PredictionRequest.mk "ana" (Some "rent") 30 "linear")
     = Raise (HTTPException 400 "Need at least 2 days of data").
Proof.
  split; [reflexivity|].
  destruct (predict_expenses_error_status (Sample.runtime true) Sample.store
              (PredictionRequest.mk "ana" (Some "rent") 30 "linear"))
    as (_ & Hvalue & _).
  apply (Hvalue LinearPredictor "Need at least 2 days of data");
    [vm_compute; discriminate|reflexivity..].
Defined.

(** X7.  A response of [predict_expenses] is built from a forecast of the
    user's transactions for the requested number of days: by the LSTM
    predictor with [lookback=7], TensorFlow being available, when the
    request says ["lstm"]; by the linear predictor for any other
    [model_type].  The response echoes the user, the category and the
    [model_type] of the request. *)
Theorem predict_expenses_response rt db request response :
  predict_expenses rt db request = Ok response ->
  let transactions :=
    get_user_transactions db (PredictionRequest.user_id request)
      (PredictionRequest.category request) in
  transactions <> []
  /\ PredictionResponse.user_id response = PredictionRequest.user_id request
  /\ PredictionResponse.category response
     = PredictionRequest.category request
  /\ PredictionResponse.model_type response
     = PredictionRequest.model_type request
  /\ exists predictor result,
       predict rt predictor transactions
         (PredictionRequest.days_ahead request) = Ok result
       /\ response = prediction_response rt request result
       /\ (PredictionRequest.model_type request = "lstm" ->
           TENSORFLOW_AVAILABLE rt = true
           /\ predictor = LSTMPredictor (Some 7))
       /\ (PredictionRequest.model_type request <> "lstm" ->
           predictor = LinearPredictor).
Proof.
  rewrite predict_expenses_excepts. unfold predict_expenses_try.
  cbv zeta.
  set (transactions :=
         get_user_transactions db (PredictionRequest.user_id request)
           (PredictionRequest.category request)).
  intros Hr. destruct transactions as [|t l].
  { simpl in Hr. done. }
  destruct (select_predictor rt (PredictionRequest.model_type request))
    as [predictor|e1] eqn:Hsel; simpl in Hr;
    [|by destruct (is_ValueError e1)].
  destruct (predict rt predictor (t :: l) _) as [result|e1] eqn:Hres;
    simpl in Hr; [|by destruct (is_ValueError e1)].
  injection Hr as <-. split; [done|]. do 3 (split; [done|]).
  exists predictor, result. split; [done|]. split; [done|].
  unfold select_predictor in Hsel. split.
  - intros Hm. rewrite bool_decide_eq_true_2 in Hsel by done.
    destruct (TENSORFLOW_AVAILABLE rt); simpl in Hsel; [|done].
    by injection Hsel as <-.
  - intros Hm. rewrite bool_decide_eq_false_2 in Hsel by done.
    by injection Hsel as <-.
Qed.

Lemma predict_expenses_response_witness :
  exists response,
    predict_expenses (Sample.runtime true) Sample.store
      (PredictionRequest.mk "ana" None 30 "lstm") = Ok response
    /\ PredictionResponse.model_type response = "lstm".
Proof.
  destruct (predict_expenses (Sample.runtime true) Sample.store
              (PredictionRequest.mk "ana" None 30 "lstm"))
    as [response|e] eqn:Hr; [|vm_compute in Hr; discriminate].
  exists response. split; [reflexivity|].
  by destruct (predict_expenses_response _ _ _ _ Hr) as (_ & _ & _ & -> & _).
Defined.

(** ** More on the insights handler *)

(** The categories of the outcomes are picked, in order, from the categories
    the loop runs over. *)
Lemma outcome_categories_sublist rt transactions days_ahead categories :
  (CategoryInsights.category
   <$> (omap (category_outcome rt transactions days_ahead) categories).*1)
  `sublist_of` categories.
Proof.
  induction categories as [|c categories IH]; [done|].
  cbn [omap list_omap].
  destruct (category_outcome rt transactions days_ahead c)
    as [[insight total]|] eqn:Hc.
  - apply category_outcome_Some in Hc as (<- & _).
    rewrite !fmap_cons. by apply sublist_skip.
  - by apply sublist_cons.
Qed.

Lemma listed_NoDup rt db user_id days_ahead r :
  get_spending_insights rt db user_id days_ahead = Ok r -> NoDup (listed r).
Proof.
  intros [_ ->]%get_spending_insights_Ok.
  unfold listed. cbn [InsightsResponse.categories].
  eapply sublist_NoDup; [|apply outcome_categories_sublist].
  apply set_to_list_NoDup.
Qed.

Lemma listed_has_two rt db user_id days_ahead r category :
  get_spending_insights rt db user_id days_ahead = Ok r ->
  category ∈ listed r ->
  (2 <= length (category_transactions category
                  (get_user_transactions db user_id None)))%nat.
Proof.
  intros Hr Hc.
  destruct (get_spending_insights_listed _ _ _ _ _ _ Hr Hc)
    as (insight & total & Hsome).
  by apply category_outcome_Some in Hsome as (_ & Hlen & _).
Qed.

(** X8.  The insights list no category twice, and every category they list
    is the category of at least two transactions of the fetch. *)
Theorem listed_categories_distinct rt db user_id days_ahead r :
  get_spending_insights rt db user_id days_ahead = Ok r ->
  NoDup (listed r)
  /\ forall category,
       category ∈ listed r ->
       category ∈ Transaction.category
                  <$> get_user_transactions db user_id None
       /\ (2 <= length (category_transactions category
                          (get_user_transactions db user_id None)))%nat.
Proof.
  intros Hr. split; [by eapply listed_NoDup|].
  intros category Hc.
  pose proof (listed_has_two _ _ _ _ _ _ Hr Hc) as Hlen.
  split; [|done]. apply category_transactions_elem. lia.
Qed.

Lemma listed_categories_distinct_witness :
  exists r,
    get_spending_insights (Sample.runtime false) Sample.store "ana" 30 = Ok r
    /\ NoDup (listed r).
Proof.
  destruct (get_spending_insights (Sample.runtime false) Sample.store "ana"
              30) as [r|e] eqn:Hr; [|vm_compute in Hr; discriminate].
  exists r. split; [reflexivity|].
  by destruct (listed_categories_distinct _ _ _ _ _ Hr).
Defined.

Lemma length_filter_split {A} (f : A -> bool) (l : list A) :
  length l
  = (length (List.filter f l)
     + length (List.filter (fun x => negb (f x)) l))%nat.
Proof.
  induction l as [|x l IH]; simpl; [done|].
  destruct (f x); simpl; lia.
Qed.

Lemma category_transactions_other c c' transactions :
  c' <> c ->
  category_transactions c'
    (List.filter
       (fun t => negb (bool_decide (Transaction.category t = c)))
       transactions)
  = category_transactions c' transactions.
Proof.
  intros Hne. unfold category_transactions.
  induction transactions as [|t l IH]; simpl; [done|].
  destruct (decide (Transaction.category t = c)) as [Hc|Hc].
  - rewrite (bool_decide_eq_true_2 _ Hc). simpl.
    rewrite bool_decide_eq_false_2 by congruence. done.
  - rewrite (bool_decide_eq_false_2 _ Hc). simpl. by rewrite IH.
Qed.

(** Distinct categories with two transactions each take up twice their
    number of transactions. *)
Lemma distinct_categories_bound categories :
  NoDup categories ->
  forall transactions,
    (forall c, c ∈ categories ->
               (2 <= length (category_transactions c transactions))%nat) ->
    (2 * length categories <= length transactions)%nat.
Proof.
  induction 1 as [|c categories Hc _ IH]; intros transactions Hall.
  - simpl. lia.
  - rewrite (length_filter_split
               (fun t => bool_decide (Transaction.category t = c))
               transactions).
    pose proof (Hall c (list_elem_of_here _ _)) as Hlen.
    unfold category_transactions in Hlen.
    specialize (IH (List.filter
                      (fun t => negb (bool_decide (Transaction.category t
                                                   = c))) transactions)).
    cbn [length].
    assert (2 * length categories
            <= length (List.filter
                         (fun t => negb (bool_decide
                                           (Transaction.category t = c)))
                         transactions))%nat; [|lia].
    apply IH. intros c' Hc'.
    rewrite category_transactions_other by (intros ->; done).
    apply Hall. by apply list_elem_of_further.
Qed.

(** X9.  The insights list at most half as many categories as the fetch
    has transactions, hence never more than 500. *)
Theorem listed_categories_bound rt db user_id days_ahead r :
  get_spending_insights rt db user_id days_ahead = Ok r ->
  (2 * length (InsightsResponse.categories r)
   <= length (get_user_transactions db user_id None))%nat
  /\ (length (InsightsResponse.categories r) <= 500)%nat.
Proof.
  intros Hr.
  assert (Hb : (2 * length (listed r)
                <= length (get_user_transactions db user_id None))%nat).
  { apply distinct_categories_bound; [by eapply listed_NoDup|].
    intros c Hc. by eapply listed_has_two. }
  unfold listed in Hb. rewrite length_fmap in Hb.
  split; [done|].
  pose proof (fetch_length db user_id None). lia.
Qed.

Lemma listed_categories_bound_witness :
  exists r,
    get_spending_insights (Sample.runtime false) Sample.store "ana" 30 = Ok r
    /\ (length (InsightsResponse.categories r) <= 500)%nat.
Proof.
  destruct (get_spending_insights (Sample.runtime false) Sample.store "ana"
              30) as [r|e] eqn:Hr; [|vm_compute in Hr; discriminate].
  exists r. split; [reflexivity|].
  by destruct (listed_categories_bound _ _ _ _ _ Hr).
Defined.

(** X10.  [get_spending_insights] fails in one way only, with the 404 for a
    user without any expense; it never answers a 400 or a 500, whatever the
    predictor does. *)
Theorem get_spending_insights_fails_only_without_data
    rt db user_id days_ahead e :
  get_spending_insights rt db user_id days_ahead = Raise e ->
  get_user_transactions db user_id None = [] /\ e = no_data.
Proof.
  intros He.
  destruct (decide (get_user_transactions db user_id None = []))
    as [Hnil|Hne].
  - split; [done|].
    unfold get_spending_insights, get_spending_insights_try in He.
    rewrite Hnil in He. simpl in He. congruence.
  - by rewrite (get_spending_insights_data rt db user_id days_ahead Hne)
      in He.
Qed.

Lemma get_spending_insights_fails_only_without_data_witness :
  get_user_transactions Sample.store "zed" None = []
  /\ get_spending_insights (Sample.runtime false) Sample.store "zed" 30
     = Raise no_data.
Proof.
  assert (He : get_spending_insights (Sample.runtime false) Sample.store
                 "zed" 30 = Raise no_data) by reflexivity.
  split; [|exact He].
  by destruct (get_spending_insights_fails_only_without_data _ _ _ _ _ He).
Defined.

(** ** The order of the categories *)





(** The two totals need not be equal: the same three forecasts added in the
    two orders. *)
Example set_order_changes_total :
  exists r r',
    get_spending_insights (Sample.runtime false) Sample.uneven "ana" 1 = Ok r
    /\ get_spending_insights (Sample.reversed_runtime false) Sample.uneven
         "ana" 1 = Ok r'
    /\ InsightsResponse.total_predicted_spending r = 1e16%float
    /\ InsightsResponse.total_predicted_spending r'
       = 10000000000000002%float.
Proof. eexists _, _. repeat split; vm_compute; reflexivity. Qed.

(** ** The comparison handler *)

(** [result.get("accuracy_score", 0.0)] in a summary. *)
Lemma model_summary_accuracy result :
  (Forecast.accuracy_score result = None ->
   ModelSummary.accuracy_score (model_summary result) = Some 0%float)
  /\ (forall v,
        Forecast.accuracy_score result = Some v ->
        ModelSummary.accuracy_score (model_summary result) = v).
Proof. unfold model_summary. simpl. split; [|intros v]; by intros ->. Qed.

(** X12.  With data and a linear forecast, [compare_models] always returns
    a response, whatever the LSTM predictor does: the response carries the
    summary of the linear forecast, whose accuracy is [0.0] when the
    forecast has no accuracy score and the value of the score otherwise,
    [None] included; for the LSTM it carries a fixed text when TensorFlow is
    missing or the fetch has fewer than 8 transactions, the text of the
    error when the LSTM predictor raises one, and the summary of its
    forecast otherwise. *)
Theorem compare_models_absorbs_lstm rt db user_id days_ahead result :
  let transactions := get_user_transactions db user_id None in
  transactions <> [] ->
  predict rt LinearPredictor transactions days_ahead = Ok result ->
  exists r,
    compare_models rt db user_id days_ahead = Ok r
    /\ Comparison.user_id r = user_id
    /\ Comparison.days_ahead r = days_ahead
    /\ Comparison.linear_regression r = model_summary result
    /\ ((Forecast.accuracy_score result = None ->
         ModelSummary.accuracy_score (Comparison.linear_regression r)
         = Some 0%float)
        /\ (forall v,
              Forecast.accuracy_score result = Some v ->
              ModelSummary.accuracy_score (Comparison.linear_regression r)
              = v))
    /\ (TENSORFLOW_AVAILABLE rt = false \/ (length transactions < 8)%nat ->
        Comparison.lstm r
        = LstmText
            "Not available (requires TensorFlow and at least 8 days of data)")
    /\ (TENSORFLOW_AVAILABLE rt = true -> (8 <= length transactions)%nat ->
        (forall e,
           predict rt (LSTMPredictor None) transactions days_ahead = Raise e ->
           Comparison.lstm r = LstmError (str_exc rt e))
        /\ (forall lstm_result,
              predict rt (LSTMPredictor None) transactions days_ahead
              = Ok lstm_result ->
              Comparison.lstm r = LstmSummary (model_summary lstm_result))).
Proof.
  intros transactions Hne Hres.
  unfold compare_models, compare_models_try. fold transactions.
  destruct transactions as [|t l] eqn:Ht; [done|].
  rewrite Hres. cbn [bind].
  destruct (TENSORFLOW_AVAILABLE rt) eqn:Htf;
    destruct (Nat.leb_spec 8 (length (t :: l))) as [Hlen|Hlen];
    cbn [andb].
  - destruct (predict rt (LSTMPredictor None) (t :: l) days_ahead)
      as [lstm_result|e] eqn:Hl; cbn [reraise_http];
      eexists; (split; [reflexivity|]);
      cbn [Comparison.user_id Comparison.days_ahead
             Comparison.linear_regression Comparison.lstm];
      (do 3 (split; [done|])); (split; [apply model_summary_accuracy|]);
      (split; [intros [?|?]; (done || (simpl in *; lia))|]);
      intros _ _; split; intros ? [=]; by subst.
  - eexists. split; [reflexivity|].
    cbn [Comparison.user_id Comparison.days_ahead
           Comparison.linear_regression Comparison.lstm].
    do 3 (split; [done|]). split; [apply model_summary_accuracy|].
    split; [done|]. intros _ ?. simpl in *. lia.
  - eexists. split; [reflexivity|].
    cbn [Comparison.user_id Comparison.days_ahead
           Comparison.linear_regression Comparison.lstm].
    do 3 (split; [done|]). split; [apply model_summary_accuracy|].
    by split.
  - eexists. split; [reflexivity|].
    cbn [Comparison.user_id Comparison.days_ahead
           Comparison.linear_regression Comparison.lstm].
    do 3 (split; [done|]). split; [apply model_summary_accuracy|].
    by split.
Qed.

Lemma compare_models_absorbs_lstm_witness :
  (exists r,
     compare_models Sample.failing_lstm_runtime Sample.store "ana" 30 = Ok r
     /\ Comparison.lstm r = LstmError "training diverged")
  /\ (exists r,
        compare_models (Sample.accuracy_runtime (Some None)) Sample.store
          "ana" 30 = Ok r
        /\ ModelSummary.accuracy_score (Comparison.linear_regression r)
           = None).
Proof.
  split.
  - destruct (compare_models_absorbs_lstm Sample.failing_lstm_runtime
                Sample.store "ana" 30
                (Forecast.mk [] 1200%float 40%float "increasing" None))
      as (r & Hr & _ & _ & _ & _ & _ & Hlstm).
    { vm_compute. discriminate. }
    { reflexivity. }
    exists r. split; [exact Hr|].
    destruct Hlstm as [Herr _]; [reflexivity|vm_compute; lia|].
    apply (Herr (OtherException "training diverged")). reflexivity.
  - destruct (compare_models_absorbs_lstm
                (Sample.accuracy_runtime (Some None)) Sample.store "ana" 30
                (Forecast.mk [] 40%float 40%float "stable" (Some None)))
      as (r & Hr & _ & _ & _ & [_ Hacc] & _).
    { vm_compute. discriminate. }
    { reflexivity. }
    exists r. split; [exact Hr|]. by apply Hacc.
Defined.

(** X13.  An error leaves [compare_models] in two cases only: the 404 for a
    user without any expense, and an error of the linear forecast, which
    leaves as it is when it is an [HTTPException] and as a 500 whose detail
    starts with ["Comparison error: "] otherwise.  The LSTM predictor is
    never the cause. *)
Theorem compare_models_errors rt db user_id days_ahead e :
  compare_models rt db user_id days_ahead = Raise e ->
  (get_user_transactions db user_id None = [] /\ e = no_data)
  \/ (exists e0,
        get_user_transactions db user_id None <> []
        /\ predict rt LinearPredictor (get_user_transactions db user_id None)
             days_ahead = Raise e0
        /\ e = if is_HTTPException e0 then e0
               else HTTPException 500
                      ("Comparison error: " ++ str_exc rt e0)%string).
Proof.
  unfold compare_models, compare_models_try.
  destruct (get_user_transactions db user_id None) as [|t l].
  { simpl. intros [= <-]. by left. }
  destruct (predict rt LinearPredictor (t :: l) days_ahead)
    as [result|e0] eqn:Hres; cbn [bind].
  - destruct (TENSORFLOW_AVAILABLE rt && (8 <=? length (t :: l))%nat);
      [|done].
    by destruct (predict rt (LSTMPredictor None) (t :: l) days_ahead).
  - cbn [reraise_http]. intros He. right. exists e0.
    split; [done|]. split; [done|].
    destruct (is_HTTPException e0); congruence.
Qed.

Lemma compare_models_errors_witness :
  compare_models (Sample.runtime true) Sample.store "zed" 30 = Raise no_data
  /\ get_user_transactions Sample.store "zed" None = [].
Proof.
  assert (He : compare_models (Sample.runtime true) Sample.store "zed" 30
               = Raise no_data) by reflexivity.
  split; [exact He|].
  destruct (compare_models_errors _ _ _ _ _ He)
    as [[Hnil _]|(e0 & Hne & _)]; [exact Hnil|].
  by destruct Hne.
Defined.

(** ** More on the validation of a request *)

(** X14.  Building a request succeeds exactly when [days_ahead] is between 1
    and 365 and [model_type] is ["linear"] or ["lstm"], and the request then
    holds the four values given; when it fails, the error names
    ["days_ahead"] exactly when the number is out of range and
    ["model_type"] exactly when the text is neither of the two. *)
Theorem PredictionRequest_init_spec user_id category days_ahead model_type :
  (forall request,
     PredictionRequest_init user_id category days_ahead model_type
     = Ok request <->
     1 <= days_ahead <= 365
     /\ (model_type = "linear" \/ model_type = "lstm")
     /\ request
        = PredictionRequest.mk user_id category days_ahead model_type)
  /\ (forall e,
        PredictionRequest_init user_id category days_ahead model_type
        = Raise e ->
        exists errors,
          e = ValidationError errors
          /\ ("days_ahead" ∈ errors <-> ~ 1 <= days_ahead <= 365)
          /\ ("model_type" ∈ errors <->
              model_type <> "linear" /\ model_type <> "lstm")).
Proof.
  unfold PredictionRequest_init, validation_errors.
  pose proof (days_ahead_in_range_true days_ahead) as Hd.
  pose proof (model_type_pattern_true model_type) as Hpat.
  destruct (days_ahead_in_range days_ahead),
    (model_type_pattern model_type); cbn [app].
  - split; [|done]. intros request. split.
    + intros [= <-]. split; [by apply Hd|]. split; [by apply Hpat|done].
    + by intros (_ & _ & ->).
  - assert (Hm : ~ (model_type = "linear" \/ model_type = "lstm")).
    { intros H. by apply Hpat in H. }
    split.
    + intros request. split; [done|]. by intros (_ & H & _).
    + intros e [= <-]. exists ["model_type"]. split; [done|].
      rewrite !list_elem_of_singleton. split; split; try done.
      * intros Hn. destruct Hn. by apply Hd.
      * intros _. tauto.
  - assert (Hr : ~ 1 <= days_ahead <= 365).
    { intros H. by apply Hd in H. }
    split.
    + intros request. split; [done|]. by intros (H & _).
    + intros e [= <-]. exists ["days_ahead"]. split; [done|].
      rewrite !list_elem_of_singleton. split; split; try done.
      intros [Hl Hs]. destruct (proj1 Hpat eq_refl); done.
  - assert (Hr : ~ 1 <= days_ahead <= 365).
    { intros H. by apply Hd in H. }
    assert (Hm : ~ (model_type = "linear" \/ model_type = "lstm")).
    { intros H. by apply Hpat in H. }
    split.
    + intros request. split; [done|]. by intros (H & _).
    + intros e [= <-]. exists ["days_ahead"; "model_type"]. split; [done|].
      split; split; try done.
      * intros _. apply list_elem_of_here.
      * intros _. tauto.
      * intros _. apply list_elem_of_further, list_elem_of_here.
Qed.

Lemma PredictionRequest_init_spec_witness :
  PredictionRequest_init "ana" None 365 "lstm"
  = Ok (PredictionRequest.mk "ana" None 365 "lstm")
  /\ PredictionRequest_init "ana" None 366 "lstm"
     = Raise (ValidationError ["days_ahead"]).
Proof.
  split.
  - apply (PredictionRequest_init_spec "ana" None 365 "lstm").
    split; [lia|]. split; [by right|done].
  - destruct (PredictionRequest_init "ana" None 366 "lstm") as [r|e] eqn:He;
      [vm_compute in He; discriminate|].
    destruct (proj2 (PredictionRequest_init_spec "ana" None 366 "lstm") e He)
      as (errors & -> & _).
    vm_compute in He. by injection He as <-.
Defined.

(** ** The handlers and the connection *)

(** X15.  Before [connect_to_mongo] has run, the client is [None]: closing
    the connection raises an [AttributeError], and so does [get_database],
    which every handler answers with a 500 under its own prefix, without
    fetching anything. *)
Theorem handlers_without_connection rt p store :
  client p = None ->
  close_mongo_connection p = Raise (AttributeError_None "close")
  /\ get_database p = Raise (AttributeError_None "savemymoney")
  /\ (forall request,
        predict_expenses_in rt p store request
        = Raise (HTTPException 500
                   ("Prediction error: "
                    ++ str_exc rt (AttributeError_None "savemymoney"))%string))
  /\ (forall user_id days_ahead,
        get_spending_insights_in rt p store user_id days_ahead
        = Raise (HTTPException 500
                   ("Insights error: "
                    ++ str_exc rt (AttributeError_None "savemymoney"))%string))
  /\ (forall user_id days_ahead,
        compare_models_in rt p store user_id days_ahead
        = Raise (HTTPException 500
                   ("Comparison error: "
                    ++ str_exc rt (AttributeError_None "savemymoney"))%string)).
Proof.
  intros Hc.
  assert (Hdb : get_database p = Raise (AttributeError_None "savemymoney")).
  { unfold get_database. by rewrite Hc. }
  split; [unfold close_mongo_connection; by rewrite Hc|]. split; [done|].
  split; [|split]; intros;
    unfold predict_expenses_in, get_spending_insights_in, compare_models_in;
    by rewrite Hdb.
Qed.

Lemma handlers_without_connection_witness :
  get_spending_insights_in (Sample.runtime false) started Sample.store "ana"
    30
  = Raise (HTTPException 500
             "Insights error: 'NoneType' object has no attribute 'savemymoney'").
Proof.
  by apply (handlers_without_connection (Sample.runtime false) started
              Sample.store).
Defined.

(** X16.  When the driver accepts the address, [connect_to_mongo] installs
    the client and says so: from then on [get_database] returns the
    database [savemymoney] of that client, the handlers answer from the
    store as [predict_expenses], [get_spending_insights] and
    [compare_models] do, and [close_mongo_connection] succeeds, marking the
    client closed without removing it. *)
Theorem handlers_with_connection motor settings rt p store c :
  motor (MONGODB_URI settings) = Ok c ->
  exists p1,
    connect_to_mongo motor settings p = Ok p1
    /\ client p1 = Some c
    /\ stdout p1 = stdout p ++ ["Connected to MongoDB"]
    /\ get_database p1 = Ok (c, "savemymoney")
    /\ (forall request,
          predict_expenses_in rt p1 store request
          = predict_expenses rt store request)
    /\ (forall user_id days_ahead,
          get_spending_insights_in rt p1 store user_id days_ahead
          = get_spending_insights rt store user_id days_ahead)
    /\ (forall user_id days_ahead,
          compare_models_in rt p1 store user_id days_ahead
          = compare_models rt store user_id days_ahead)
    /\ exists p2,
         close_mongo_connection p1 = Ok p2
         /\ client p2 = Some (mkMotorClient (uri c) true)
         /\ stdout p2
            = stdout p ++ ["Connected to MongoDB"; "Closed MongoDB connection"]
         /\ get_database p2
            = Ok (mkMotorClient (uri c) true, "savemymoney").
Proof.
  intros Hm. unfold connect_to_mongo. rewrite Hm. cbn [bind].
  eexists. split; [reflexivity|]. cbn [client stdout].
  do 3 (split; [reflexivity|]).
  do 3 (split; [reflexivity|]).
  eexists. split; [reflexivity|]. cbn [client stdout].
  split; [done|]. split; [|done]. by rewrite <- app_assoc.
Qed.

Lemma handlers_with_connection_witness :
  exists p1,
    connect_to_mongo Sample.motor Sample.settings started = Ok p1
    /\ get_spending_insights_in (Sample.runtime false) p1 Sample.store "ana"
         30
       = get_spending_insights (Sample.runtime false) Sample.store "ana" 30.
Proof.
  destruct (handlers_with_connection Sample.motor Sample.settings
              (Sample.runtime false) started Sample.store
              (mkMotorClient "mongodb://localhost:27017/savemymoney" false)
              eq_refl)
    as (p1 & Hp1 & _ & _ & _ & _ & Hins & _).
  exists p1. split; [exact Hp1|]. apply Hins.
Defined.

(** X17.  [lifespan] connects before the application runs and closes after
    it: when the driver refuses the address its error leaves [lifespan] and
    the application never runs; when the application leaves the client in
    place, the shutdown succeeds and the last thing printed is
    ["Closed MongoDB connection"]. *)
Theorem lifespan_brackets_the_application motor settings app p :
  (forall e,
     motor (MONGODB_URI settings) = Raise e ->
     lifespan motor settings app p = Raise e)
  /\ (forall c p2,
        motor (MONGODB_URI settings) = Ok c ->
        app (mkProcess (Some c) (stdout p ++ ["Connected to MongoDB"]))
        = Ok p2 ->
        client p2 <> None ->
        exists p3,
          lifespan motor settings app p = Ok p3
          /\ stdout p3 = stdout p2 ++ ["Closed MongoDB connection"]
          /\ (closed <$> client p3) = Some true).
Proof.
  unfold lifespan, connect_to_mongo. split.
  - by intros e ->.
  - intros c p2 -> Happ Hc. cbn [bind]. rewrite Happ. cbn [bind].
    unfold close_mongo_connection.
    destruct (client p2) as [c2|]; [|done].
    eexists. split; [reflexivity|]. by split.
Qed.

Lemma lifespan_brackets_the_application_witness :
  exists p3,
    lifespan Sample.motor Sample.settings Ok started = Ok p3
    /\ stdout p3 = ["Connected to MongoDB"; "Closed MongoDB connection"].
Proof.
  destruct (lifespan_brackets_the_application Sample.motor Sample.settings
              Ok started) as [_ Hrun].
  destruct (Hrun (mkMotorClient "mongodb://localhost:27017/savemymoney" false)
              (mkProcess
                 (Some (mkMotorClient "mongodb://localhost:27017/savemymoney"
                          false))
                 ["Connected to MongoDB"]))
    as (p3 & Hp3 & Hout & _); [reflexivity..|discriminate|].
  exists p3. split; [exact Hp3|exact Hout].
Defined.
